(** * Syllabus-Agent: the relay server [server.py]

    A shallow embedding of the Flask back end: the two outbound helpers
    ([call_gemini_api], [search_youtube_videos]), the six POST handlers and
    the start-up credential check, followed by the properties of the
    outbound-call orchestration and response-normalisation layer.

    Conventions of the embedding.
    - A Python value that travels through the handlers (a decoded JSON
      document) is a [value]; a [dict] is an association list in insertion
      order with distinct keys.
    - A Python [str] is a [string]; one character is one code point below
      256, on which [str.lower] and [str.strip] are written out in full.
    - A raised exception is a [Raise] result; [try]/[except] clauses are
      handler functions on the exception class.
    - Outbound HTTP calls are answered by the [remote] field of a [World]
      and recorded, in order, in a log threaded through the computation.
    - [json.loads] and [str()] on non-string values are library code: they
      are fields of the [World], so every general theorem holds for any
      behaviour of theirs.
    - The library calls are modelled within the limits of the interpreter:
      [json.loads] and [response.json()] either return or raise their
      decode error, and [jsonify] returns.  What they raise beyond that on
      extreme inputs (a recursion limit, an integer of thousands of digits)
      is outside the model.
    - Not modelled: the two static-file routes and what [app.logger]
      writes. *)

From Stdlib Require Import ZArith List Bool String Ascii Lia.
From Stdlib Require Import Floats.SpecFloat.
Import ListNotations.

Set Warnings "-register-all".

Open Scope Z_scope.
Open Scope list_scope.
Open Scope string_scope.

(** ** Characters that cannot be written inside a literal *)

Definition nl : string := String (ascii_of_nat 10) EmptyString.
Definition dq : string := String (ascii_of_nat 34) EmptyString.

(** ** Python values *)

Inductive value : Type :=
| VNone
| VBool (b : bool)
| VInt (n : Z)
| VFloat (x : spec_float)
| VStr (s : string)
| VList (xs : list value)
| VDict (kvs : list (string * value)).

(** [bool(v)]: the truth value Python gives to [v] in [if v], [not v],
    [a and b], [x if v else y]. *)
Definition truthy (v : value) : bool :=
  match v with
  | VNone => false
  | VBool b => b
  | VInt n => negb (n =? 0)%Z
  | VFloat (S754_zero _) => false
  | VFloat _ => true
  | VStr s => negb (s =? "")%string
  | VList xs => match xs with [] => false | _ => true end
  | VDict kvs => match kvs with [] => false | _ => true end
  end.

(** ** Exceptions and results *)

Inductive exn : Type :=
| RequestException   (* requests.exceptions.RequestException and subclasses *)
| JSONDecodeError    (* json.JSONDecodeError raised by json.loads *)
| KeyError
| IndexError
| TypeError
| AttributeError.

Inductive res (A : Type) : Type :=
| Ret (a : A)
| Raise (e : exn).
Arguments Ret {A} a.
Arguments Raise {A} e.

Definition rbind {A B} (r : res A) (k : A -> res B) : res B :=
  match r with
  | Ret a => k a
  | Raise e => Raise e
  end.

(** ** dict, list and str operations used by the server *)

Fixpoint dict_lookup (k : string) (kvs : list (string * value)) : option value :=
  match kvs with
  | [] => None
  | (k', v) :: rest => if (k =? k')%string then Some v else dict_lookup k rest
  end.

(** [o.get(k, default)]: only a dict has [get]. *)
Definition py_get_default (o : value) (k : string) (default : value) : res value :=
  match o with
  | VDict kvs => Ret (match dict_lookup k kvs with Some v => v | None => default end)
  | _ => Raise AttributeError
  end.

(** [o.get(k)] *)
Definition py_get (o : value) (k : string) : res value :=
  py_get_default o k VNone.

Definition char_str (c : ascii) : value := VStr (String c EmptyString).

(** [o[k]] with a string key. *)
Definition py_item (o : value) (k : string) : res value :=
  match o with
  | VDict kvs => match dict_lookup k kvs with Some v => Ret v | None => Raise KeyError end
  | _ => Raise TypeError
  end.

(** [o[i]] with an integer index. *)
Definition py_index (o : value) (i : Z) : res value :=
  match o with
  | VList xs =>
      let j := (if i <? 0 then Z.of_nat (List.length xs) + i else i)%Z in
      if (j <? 0)%Z then Raise IndexError
      else match nth_error xs (Z.to_nat j) with
           | Some v => Ret v
           | None => Raise IndexError
           end
  | VStr s =>
      let j := (if i <? 0 then Z.of_nat (String.length s) + i else i)%Z in
      if (j <? 0)%Z then Raise IndexError
      else match String.get (Z.to_nat j) s with
           | Some c => Ret (char_str c)
           | None => Raise IndexError
           end
  | VDict _ => Raise KeyError
  | _ => Raise TypeError
  end.

(** [for item in o]: the sequence of items the loop visits. *)
Definition py_iter (o : value) : res (list value) :=
  match o with
  | VList xs => Ret xs
  | VDict kvs => Ret (map (fun kv => VStr (fst kv)) kvs)
  | VStr s => Ret (map char_str (list_ascii_of_string s))
  | _ => Raise TypeError
  end.

Definition lower_char (c : ascii) : ascii :=
  let n := nat_of_ascii c in
  if ((65 <=? n) && (n <=? 90) || (192 <=? n) && (n <=? 214)
      || (216 <=? n) && (n <=? 222))%nat
  then ascii_of_nat (n + 32) else c.

(** [s.lower()] *)
Fixpoint py_lower (s : string) : string :=
  match s with
  | EmptyString => EmptyString
  | String c s' => String (lower_char c) (py_lower s')
  end.

(** [needle in hay] on two strings. *)
Fixpoint py_contains (needle hay : string) : bool :=
  prefix needle hay
  || match hay with
     | EmptyString => false
     | String _ hay' => py_contains needle hay'
     end.

(** The scan of [str.replace]: left to right, the text of a match is
    skipped ([skip] counts the characters of it still to pass) and the
    search resumes behind it. *)
Fixpoint replace_from (old new : string) (skip : nat) (s : string) : string :=
  match s with
  | EmptyString => EmptyString
  | String c s' =>
      match skip with
      | S k => replace_from old new k s'
      | O =>
          if prefix old s
          then new ++ replace_from old new (String.length old - 1) s'
          else String c (replace_from old new 0 s')
      end
  end.

Fixpoint interleave (new s : string) : string :=
  match s with
  | EmptyString => EmptyString
  | String c s' => String c (new ++ interleave new s')
  end.

(** [s.replace(old, new)] *)
Definition py_replace (s old new : string) : string :=
  match old with
  | EmptyString => new ++ interleave new s
  | _ => replace_from old new 0 s
  end.

Definition is_space (c : ascii) : bool :=
  let n := nat_of_ascii c in
  ((9 <=? n) && (n <=? 13) || (28 <=? n) && (n <=? 32)
   || (n =? 133) || (n =? 160))%nat.

Fixpoint py_lstrip (s : string) : string :=
  match s with
  | EmptyString => EmptyString
  | String c s' => if is_space c then py_lstrip s' else s
  end.

Fixpoint py_rstrip (s : string) : string :=
  match s with
  | EmptyString => EmptyString
  | String c s' =>
      match py_rstrip s' with
      | EmptyString => if is_space c then EmptyString else String c EmptyString
      | r => String c r
      end
  end.

(** [s.strip()] *)
Definition py_strip (s : string) : string := py_rstrip (py_lstrip s).

(** [s.endswith(suffix)] *)
Fixpoint py_endswith (s suffix : string) : bool :=
  (s =? suffix)%string
  || match s with
     | EmptyString => false
     | String _ s' => py_endswith s' suffix
     end.

(** A method of [str] called on [v]: any other type has no such attribute. *)
Definition as_str (v : value) : res string :=
  match v with
  | VStr s => Ret s
  | _ => Raise AttributeError
  end.

(** ** The outside world *)

Inductive outbound : Type :=
| Post (url : string) (headers params : list (string * value))
       (json : value) (timeout : Z)
| Get (url : string) (params : list (string * value)) (timeout : Z).

(** What [requests] gets back: nothing (connection error, timeout) or a
    response with its status code and its body as [response.json()]
    decodes it ([None] when the body is not JSON). *)
Inductive http_outcome : Type :=
| NoResponse
| Response (status_code : Z) (json_body : option value).

Class World : Type := {
  GOOGLE_API_KEY : string;
  YOUTUBE_API_KEY : string;
  (** [str(v)] for a [v] that is not itself a [str] *)
  py_str : value -> string;
  (** [json.loads]; [None] stands for [json.JSONDecodeError] *)
  json_loads : string -> option value;
  (** the answer of the remote services to a request *)
  remote : outbound -> http_outcome
}.

(** ** Computations that call out: a log of the requests sent, and a result *)

Definition M (A : Type) : Type := list outbound -> res A * list outbound.

Definition ret {A} (a : A) : M A := fun log => (Ret a, log).

Definition lift {A} (r : res A) : M A := fun log => (r, log).

Definition bind {A B} (m : M A) (k : A -> M B) : M B :=
  fun log =>
    match m log with
    | (Ret a, log') => k a log'
    | (Raise e, log') => (Raise e, log')
    end.

(** [try: body  except ...:] with [handler e = Some h] when a clause
    matches the class of [e]. *)
Definition try_except {A} (body : M A) (handler : exn -> option (M A)) : M A :=
  fun log =>
    match body log with
    | (Raise e, log') =>
        match handler e with
        | Some h => h log'
        | None => (Raise e, log')
        end
    | done => done
    end.

Declare Scope py_scope.
Delimit Scope py_scope with py.
Notation "x <- m ;; k" := (bind m (fun x => k))
  (at level 200, m at level 100, k at level 200, only parsing) : py_scope.
Notation "x <~ r ;; k" := (rbind r (fun x => k))
  (at level 200, r at level 100, k at level 200, only parsing) : py_scope.
Open Scope py_scope.

(** ** Flask's side of a handler *)

(** What a view function returns: [jsonify(body)] and a status code. *)
Definition response : Type := (value * Z)%type.

Definition jsonify (body : value) : response := (body, 200).
Definition jsonify_status (body : value) (status : Z) : response := (body, status).

(** What the client receives: the JSON body of the view, or Flask's own
    500 page when the view raised. *)
Inductive http_reply : Type :=
| JsonReply (status : Z) (body : value)
| InternalServerError.

Definition dispatch (view : M response) : http_reply * list outbound :=
  match view [] with
  | (Ret (body, status), log) => (JsonReply status body, log)
  | (Raise _, log) => (InternalServerError, log)
  end.

Definition status_of (r : http_reply) : Z :=
  match r with
  | JsonReply status _ => status
  | InternalServerError => 500
  end.

(** ** Start-up: the credential checks at module level *)

Inductive startup : Type :=
| Exit (code : Z) (printed : list string)
| Configured (google_api_key youtube_api_key : string).

(** [not os.getenv(name)] *)
Definition unset (v : option string) : bool :=
  match v with
  | None => true
  | Some s => (s =? "")%string
  end.

Definition module_init (getenv : string -> option string) : startup :=
  let google := getenv "GOOGLE_API_KEY" in
  let youtube := getenv "YOUTUBE_API_KEY" in
  if unset google then
    Exit 1
      [ "CRITICAL: GOOGLE_API_KEY environment variable not set.";
        "Please set it in your .env file or as an environment variable directly.";
        "You can get one from https://makersuite.google.com/app/apikey" ]
  else if unset youtube then
    Exit 1
      [ "CRITICAL: YOUTUBE_API_KEY environment variable not set.";
        "Please set it in your .env file or as an environment variable directly.";
        "You can get one from console.cloud.google.com, APIs & Services -> Credentials.";
        "Also, ensure YouTube Data API v3 is enabled in your GCP project." ]
  else
    Configured (match google with Some k => k | None => "" end)
               (match youtube with Some k => k | None => "" end).

(** Whether the module gets past the checks, to its routes and [app.run]. *)
Definition serves (s : startup) : bool :=
  match s with
  | Configured _ _ => true
  | Exit _ _ => false
  end.

Definition GEMINI_API_URL : string :=
  "https://generativelanguage.googleapis.com/v1beta/models/gemini-1.5-flash:generateContent".
Definition YOUTUBE_SEARCH_URL : string :=
  "https://www.googleapis.com/youtube/v3/search".

(** The fence removal of [call_gemini_api]:
    [text_response.replace('```json\n', '').replace('\n```', '').strip()] *)
Definition clean_json_string (text_response : string) : string :=
  py_strip (py_replace (py_replace text_response ("```json" ++ nl) "") (nl ++ "```") "").

(** [response.raise_for_status()]: an HTTPError for a 4xx or 5xx status. *)
Definition raise_for_status (r : Z * option value) : res unit :=
  if ((400 <=? fst r) && (fst r <? 600))%Z then Raise RequestException else Ret tt.

(** [response.json()]: a body that is not JSON raises the JSONDecodeError of
    [requests], a RequestException. *)
Definition response_json (r : Z * option value) : res value :=
  match snd r with
  | Some v => Ret v
  | None => Raise RequestException
  end.

Definition looks_like_lecture (lowered : string) : bool :=
  py_contains "lecture" lowered || py_contains "tutorial" lowered
  || py_contains "course" lowered.

(** ** The response schemas the handlers send along *)

Definition topics_schema : value :=
  VDict [ ("type", VStr "ARRAY");
          ("items", VDict [ ("type", VStr "OBJECT");
                            ("properties", VDict [ ("topic", VDict [ ("type", VStr "STRING") ]) ]);
                            ("propertyOrdering", VList [ VStr "topic" ]) ]) ].

Definition video_schema : value :=
  VDict [ ("type", VStr "OBJECT");
          ("properties", VDict [ ("title", VDict [ ("type", VStr "STRING") ]);
                                 ("url", VDict [ ("type", VStr "STRING") ]) ]);
          ("propertyOrdering", VList [ VStr "title"; VStr "url" ]) ].

Definition flashcards_schema : value :=
  VDict [ ("type", VStr "ARRAY");
          ("items", VDict [ ("type", VStr "OBJECT");
                            ("properties", VDict [ ("front", VDict [ ("type", VStr "STRING") ]);
                                                   ("back", VDict [ ("type", VStr "STRING") ]) ]);
                            ("propertyOrdering", VList [ VStr "front"; VStr "back" ]) ]) ].

Definition questions_schema : value :=
  VDict [ ("type", VStr "ARRAY");
          ("items", VDict [ ("type", VStr "STRING") ]) ].

(** ** The server *)

Section Server.
Context {W : World}.

(** [f"{v}"] *)
Definition format_value (v : value) : string :=
  match v with
  | VStr s => s
  | _ => py_str v
  end.

Definition requests_post (url : string) (headers params : list (string * value))
    (json : value) (timeout : Z) : M (Z * option value) :=
  fun log =>
    let call := Post url headers params json timeout in
    (match remote call with
     | NoResponse => Raise RequestException
     | Response status body => Ret (status, body)
     end, (log ++ [call])%list).

Definition requests_get (url : string) (params : list (string * value))
    (timeout : Z) : M (Z * option value) :=
  fun log =>
    let call := Get url params timeout in
    (match remote call with
     | NoResponse => Raise RequestException
     | Response status body => Ret (status, body)
     end, (log ++ [call])%list).

(** *** [call_gemini_api] *)

(** [result["candidates"][0]] *)
Definition first_candidate (result : value) : res value :=
  candidates <~ py_item result "candidates" ;;
  py_index candidates 0.

(** The guard
    [result.get("candidates") and result["candidates"][0].get("content")
     and result["candidates"][0]["content"].get("parts")]. *)
Definition has_parts (result : value) : res bool :=
  candidates <~ py_get result "candidates" ;;
  if truthy candidates then
    candidate <~ first_candidate result ;;
    content <~ py_get candidate "content" ;;
    if truthy content then
      candidate <~ first_candidate result ;;
      content <~ py_item candidate "content" ;;
      parts <~ py_get content "parts" ;;
      Ret (truthy parts)
    else Ret false
  else Ret false.

(** The body of the [try] after [result = response.json()]. *)
Definition read_completion (response_schema result : value) : res value :=
  ok <~ has_parts result ;;
  if ok then
    candidate <~ first_candidate result ;;
    content <~ py_item candidate "content" ;;
    parts <~ py_item content "parts" ;;
    part <~ py_index parts 0 ;;
    text_response <~ py_item part "text" ;;
    if truthy response_schema then
      text <~ as_str text_response ;;
      match json_loads (clean_json_string text) with
      | Some v => Ret v
      | None => Raise JSONDecodeError
      end
    else
      text <~ as_str text_response ;;
      Ret (VStr (py_strip text))
  else Ret VNone.

Definition gemini_payload (prompt : string) (response_schema : value) : value :=
  let contents :=
    ("contents",
     VList [ VDict [ ("role", VStr "user");
                     ("parts", VList [ VDict [ ("text", VStr prompt) ] ]) ] ]) in
  if truthy response_schema then
    VDict [ contents;
            ("generationConfig",
             VDict [ ("responseMimeType", VStr "application/json");
                     ("responseSchema", response_schema) ]) ]
  else VDict [ contents ].

Definition call_gemini_api (prompt : string) (response_schema : value) : M value :=
  let headers := [ ("Content-Type", VStr "application/json") ] in
  let params := [ ("key", VStr GOOGLE_API_KEY) ] in
  let payload := gemini_payload prompt response_schema in
  try_except
    (response <- requests_post GEMINI_API_URL headers params payload 30 ;;
     _ <- lift (raise_for_status response) ;;
     result <- lift (response_json response) ;;
     lift (read_completion response_schema result))
    (fun e =>
       match e with
       | RequestException => Some (ret VNone)
       | JSONDecodeError => Some (ret VNone)
       | _ => None
       end).

(** *** [search_youtube_videos] *)

Definition video (video_title video_id : value) : value :=
  VDict [ ("title", video_title);
          ("url", VStr ("https://www.youtube.com/watch?v=" ++ format_value video_id)) ].

(** The [for item in results['items']] loop; [None] when it runs to its end. *)
Fixpoint scan_items (items : list value) : res (option value) :=
  match items with
  | [] => Ret None
  | item :: rest =>
      id <~ py_item item "id" ;;
      video_id <~ py_item id "videoId" ;;
      snippet <~ py_item item "snippet" ;;
      video_title <~ py_item snippet "title" ;;
      title <~ as_str video_title ;;
      if looks_like_lecture (py_lower title)
      then Ret (Some (video video_title video_id))
      else scan_items rest
  end.

(** The body of the [try] after [results = response.json()]. *)
Definition pick_video (results : value) : res value :=
  if truthy results then
    items <~ py_get results "items" ;;
    if truthy items then
      items <~ py_item results "items" ;;
      visited <~ py_iter items ;;
      found <~ scan_items visited ;;
      match found with
      | Some v => Ret v
      | None =>
          items <~ py_item results "items" ;;
          first_item <~ py_index items 0 ;;
          id <~ py_item first_item "id" ;;
          video_id <~ py_item id "videoId" ;;
          snippet <~ py_item first_item "snippet" ;;
          video_title <~ py_item snippet "title" ;;
          Ret (video video_title video_id)
      end
    else Ret VNone
  else Ret VNone.

Definition search_youtube_videos (query : string) : M value :=
  let params :=
    [ ("key", VStr YOUTUBE_API_KEY); ("q", VStr query); ("part", VStr "snippet");
      ("type", VStr "video"); ("maxResults", VInt 5);
      ("videoEmbeddable", VStr "true") ] in
  try_except
    (response <- requests_get YOUTUBE_SEARCH_URL params 10 ;;
     _ <- lift (raise_for_status response) ;;
     results <- lift (response_json response) ;;
     lift (pick_video results))
    (fun e =>
       match e with
       | RequestException => Some (ret VNone)
       | _ => Some (ret VNone)
       end).

(** *** Prompt templates (the f-strings of the handlers) *)

Definition title_prompt (syllabus_text : value) : string :=
  "From the following syllabus text, identify and extract the main course title or syllabus title. Respond with only the title string. If no clear title is found, respond with "
  ++ dq ++ "Unknown Course" ++ dq ++ "." ++ nl ++ nl ++ "Syllabus:" ++ nl
  ++ format_value syllabus_text ++ nl.

Definition topics_prompt (syllabus_text : value) : string :=
  "Extract key academic topics or subjects from the following syllabus text. Focus on main, distinct topics that someone would learn about. Return them as a JSON array of objects, where each object has a single key 'topic'. Do not include introductory phrases like 'introduction to' or 'basics of' unless the topic specifically requires it for clarity."
  ++ nl ++ "                " ++ nl ++ "Syllabus:" ++ nl
  ++ format_value syllabus_text ++ nl.

Definition video_prompt (topic : value) : string :=
  "For the academic topic " ++ dq ++ format_value topic ++ dq
  ++ ", suggest a plausible YouTube video title and a realistic YouTube URL. The URL should follow the format 'https://www.youtube.com/watch?v=xxxxxxxxxxx' where 'xxxxxxxxxxx' is a valid-looking YouTube video ID (e.g., 11 characters, alphanumeric). Prioritize topics that are likely to have educational content. Ensure the video title is concise and directly related to the topic. Return the response as a JSON object with 'title' and 'url' keys."
  ++ nl ++ nl ++ "Example:" ++ nl ++ "{" ++ nl ++ "  " ++ dq ++ "title" ++ dq
  ++ ": " ++ dq ++ "Introduction to Python Programming Tutorial" ++ dq ++ ","
  ++ nl ++ "  " ++ dq ++ "url" ++ dq ++ ": " ++ dq
  ++ "https://www.youtube.com/watch?v=rfscVS0vtbw" ++ dq ++ nl ++ "}" ++ nl
  ++ nl ++ "Topic: " ++ format_value topic ++ nl.

Definition notes_prompt (topic : value) : string :=
  "Provide concise, well-structured, and comprehensive notes for the academic topic: "
  ++ dq ++ format_value topic ++ dq ++ "." ++ nl
  ++ "    Format the notes using Markdown. Ensure clear headings and subheadings, use bullet points for lists,"
  ++ nl
  ++ "    and include blank lines between paragraphs and sections for excellent readability and proper spacing."
  ++ nl
  ++ "    Focus on essential concepts, definitions, and important facts."
  ++ nl ++ "    ".

Definition flashcards_prompt (topic : value) : string :=
  "Generate 5-7 distinct flashcards (question/answer pairs) for the academic topic: "
  ++ dq ++ format_value topic ++ dq ++ "." ++ nl
  ++ "    Each flashcard should be an object with a 'front' (question) and 'back' (answer) key."
  ++ nl ++ "    Return them as a JSON array of objects." ++ nl ++ nl
  ++ "    Example format:" ++ nl ++ "    [" ++ nl ++ "      { " ++ dq
  ++ "front" ++ dq ++ ": " ++ dq ++ "What is Python?" ++ dq ++ ", " ++ dq
  ++ "back" ++ dq ++ ": " ++ dq
  ++ "A high-level, interpreted programming language." ++ dq ++ " }," ++ nl
  ++ "      { " ++ dq ++ "front" ++ dq ++ ": " ++ dq
  ++ "Key features of Python?" ++ dq ++ ", " ++ dq ++ "back" ++ dq ++ ": "
  ++ dq ++ "Readability, extensive libraries, dynamic typing, etc." ++ dq
  ++ " }" ++ nl ++ "    ]" ++ nl ++ "    ".

Definition questions_prompt (topic : value) : string :=
  "Generate 3-5 important subjective (open-ended) questions for the academic topic: "
  ++ dq ++ format_value topic ++ dq ++ "." ++ nl
  ++ "    These questions should encourage critical thinking and deeper understanding."
  ++ nl ++ "    Return them as a JSON array of strings." ++ nl ++ nl
  ++ "    Example format:" ++ nl ++ "    [" ++ nl ++ "      " ++ dq
  ++ "Discuss the implications of X on Y." ++ dq ++ "," ++ nl ++ "      "
  ++ dq ++ "Compare and contrast A and B, providing relevant examples." ++ dq
  ++ nl ++ "    ]" ++ nl ++ "    ".

Definition search_query (topic : value) : string :=
  format_value topic ++ " academic lecture full course tutorial explanation".

(** *** The POST handlers; [data] is [request.get_json()] *)

Definition extract_title_route (data : value) : M response :=
  syllabus_text <- lift (py_get_default data "syllabus_text" (VStr "")) ;;
  if negb (truthy syllabus_text) then
    ret (jsonify_status (VDict [ ("error", VStr "Syllabus text is required") ]) 400)
  else
    title <- call_gemini_api (title_prompt syllabus_text) VNone ;;
    ret (jsonify (VDict [ ("title", title) ])).

(** [[item.get('topic') for item in topics_raw if item.get('topic')]] *)
Fixpoint collect_topics (items : list value) : res (list value) :=
  match items with
  | [] => Ret []
  | item :: rest =>
      condition <~ py_get item "topic" ;;
      if truthy condition then
        topic <~ py_get item "topic" ;;
        more <~ collect_topics rest ;;
        Ret (topic :: more)
      else collect_topics rest
  end.

(** [... if topics_raw else []] *)
Definition normalize_topics (topics_raw : value) : res (list value) :=
  if truthy topics_raw then
    items <~ py_iter topics_raw ;;
    collect_topics items
  else Ret [].

Definition extract_topics_route (data : value) : M response :=
  syllabus_text <- lift (py_get_default data "syllabus_text" (VStr "")) ;;
  if negb (truthy syllabus_text) then
    ret (jsonify_status (VDict [ ("error", VStr "Syllabus text is required") ]) 400)
  else
    topics_raw <- call_gemini_api (topics_prompt syllabus_text) topics_schema ;;
    topics <- lift (normalize_topics topics_raw) ;;
    ret (jsonify (VDict [ ("topics", VList topics) ])).

Definition failed_video : value :=
  VDict [ ("title", VStr "Failed to suggest video"); ("url", VStr "#") ].

Definition suggest_video_route (data : value) : M response :=
  topic <- lift (py_get_default data "topic" (VStr "")) ;;
  if negb (truthy topic) then
    ret (jsonify_status (VDict [ ("error", VStr "Topic is required") ]) 400)
  else
    video_info <- search_youtube_videos (search_query topic) ;;
    if truthy video_info then
      title <- lift (py_item video_info "title") ;;
      url <- lift (py_item video_info "url") ;;
      ret (jsonify (VDict [ ("title", title); ("url", url) ]))
    else
      generated_video_info <- call_gemini_api (video_prompt topic) video_schema ;;
      if truthy generated_video_info then
        title <- lift (py_get generated_video_info "title") ;;
        url <- lift (py_get generated_video_info "url") ;;
        ret (jsonify (VDict [ ("title", title); ("url", url) ]))
      else ret (jsonify failed_video).

Definition generate_notes_route (data : value) : M response :=
  topic <- lift (py_get_default data "topic" (VStr "")) ;;
  if negb (truthy topic) then
    ret (jsonify_status (VDict [ ("error", VStr "Topic is required") ]) 400)
  else
    notes <- call_gemini_api (notes_prompt topic) VNone ;;
    ret (jsonify (VDict [ ("notes", if truthy notes then notes
                                    else VStr "Could not generate notes for this topic.") ])).

Definition generate_flashcards_route (data : value) : M response :=
  topic <- lift (py_get_default data "topic" (VStr "")) ;;
  if negb (truthy topic) then
    ret (jsonify_status (VDict [ ("error", VStr "Topic is required") ]) 400)
  else
    flashcards <- call_gemini_api (flashcards_prompt topic) flashcards_schema ;;
    ret (jsonify (VDict [ ("flashcards", if truthy flashcards then flashcards else VList []) ])).

Definition generate_questions_route (data : value) : M response :=
  topic <- lift (py_get_default data "topic" (VStr "")) ;;
  if negb (truthy topic) then
    ret (jsonify_status (VDict [ ("error", VStr "Topic is required") ]) 400)
  else
    questions <- call_gemini_api (questions_prompt topic) questions_schema ;;
    ret (jsonify (VDict [ ("questions", if truthy questions then questions else VList []) ])).

End Server.

(** ** The routing table *)

Inductive handler : Type :=
| ExtractTitle
| ExtractTopics
| SuggestVideo
| GenerateNotes
| GenerateFlashcards
| GenerateQuestions.

Definition all_handlers : list handler :=
  [ ExtractTitle; ExtractTopics; SuggestVideo; GenerateNotes;
    GenerateFlashcards; GenerateQuestions ].

Definition route (h : handler) : string :=
  match h with
  | ExtractTitle => "/extract_title"
  | ExtractTopics => "/extract_topics"
  | SuggestVideo => "/suggest_video"
  | GenerateNotes => "/generate_notes"
  | GenerateFlashcards => "/generate_flashcards"
  | GenerateQuestions => "/generate_questions"
  end.

Definition view {W : World} (h : handler) : value -> M response :=
  match h with
  | ExtractTitle => extract_title_route
  | ExtractTopics => extract_topics_route
  | SuggestVideo => suggest_video_route
  | GenerateNotes => generate_notes_route
  | GenerateFlashcards => generate_flashcards_route
  | GenerateQuestions => generate_questions_route
  end.

(** The field of the request body each handler reads. *)
Definition required_field (h : handler) : string :=
  match h with
  | ExtractTitle | ExtractTopics => "syllabus_text"
  | _ => "topic"
  end.

(** A POST of the JSON document [data] to the route of [h]. *)
Definition post {W : World} (h : handler) (data : value) : http_reply * list outbound :=
  dispatch (view h data).

(** The outbound requests of a log that went to the completion service. *)
Definition completion_calls (log : list outbound) : list outbound :=
  filter (fun c => match c with
                   | Post url _ _ _ _ => (url =? GEMINI_API_URL)%string
                   | Get _ _ _ => false
                   end) log.

(** ** A JSON decoder for the worked examples

    The general theorems hold for any [json_loads].  The closed examples
    need one that runs: this decoder reads, in the strict mode of
    [json.loads], the texts made of arrays, objects, strings with the
    one-character escapes, integers, [true], [false] and [null].  Numerals
    with a fraction or an exponent and [\u] escapes are outside it and are
    not used by any example. *)

Definition is_json_ws (c : ascii) : bool :=
  let n := nat_of_ascii c in
  ((n =? 32) || (n =? 9) || (n =? 10) || (n =? 13))%nat.

Fixpoint skip_ws (s : string) : string :=
  match s with
  | EmptyString => EmptyString
  | String c s' => if is_json_ws c then skip_ws s' else s
  end.

Definition is_digit (c : ascii) : bool :=
  let n := nat_of_ascii c in ((48 <=? n) && (n <=? 57))%nat.

Definition unescape (c : ascii) : option ascii :=
  let n := nat_of_ascii c in
  if (n =? 34)%nat then Some c
  else if (n =? 92)%nat then Some c
  else if (n =? 47)%nat then Some c
  else if (n =? 98)%nat then Some (ascii_of_nat 8)
  else if (n =? 102)%nat then Some (ascii_of_nat 12)
  else if (n =? 110)%nat then Some (ascii_of_nat 10)
  else if (n =? 114)%nat then Some (ascii_of_nat 13)
  else if (n =? 116)%nat then Some (ascii_of_nat 9)
  else None.

(** The rest of a string literal, behind its opening quote. *)
Fixpoint read_string (s : string) : option (string * string) :=
  match s with
  | EmptyString => None
  | String c s' =>
      let n := nat_of_ascii c in
      if (n =? 34)%nat then Some (EmptyString, s')
      else if (n =? 92)%nat then
        match s' with
        | EmptyString => None
        | String e s'' =>
            match unescape e, read_string s'' with
            | Some x, Some (body, rest) => Some (String x body, rest)
            | _, _ => None
            end
        end
      else if (n <? 32)%nat then None
      else match read_string s' with
           | Some (body, rest) => Some (String c body, rest)
           | None => None
           end
  end.

Fixpoint read_digits (acc : Z) (s : string) : Z * string :=
  match s with
  | EmptyString => (acc, EmptyString)
  | String c s' =>
      if is_digit c
      then read_digits (10 * acc + (Z.of_nat (nat_of_ascii c) - 48))%Z s'
      else (acc, s)
  end.

Definition read_natural (s : string) : option (Z * string) :=
  match s with
  | EmptyString => None
  | String c s' =>
      if (nat_of_ascii c =? 48)%nat then Some (0%Z, s')
      else if is_digit c then Some (read_digits 0 s)
      else None
  end.

Definition starts_fraction (s : string) : bool :=
  match s with
  | EmptyString => false
  | String c _ =>
      let n := nat_of_ascii c in ((n =? 46) || (n =? 101) || (n =? 69))%nat
  end.

Definition read_int (s : string) : option (value * string) :=
  let signed :=
    match s with
    | String c s' =>
        if (nat_of_ascii c =? 45)%nat
        then match read_natural s' with
             | Some (n, rest) => Some ((- n)%Z, rest)
             | None => None
             end
        else read_natural s
    | EmptyString => None
    end in
  match signed with
  | Some (n, rest) => if starts_fraction rest then None else Some (VInt n, rest)
  | None => None
  end.

Fixpoint string_drop (n : nat) (s : string) : string :=
  match n, s with
  | S n', String _ s' => string_drop n' s'
  | _, _ => s
  end.

Fixpoint dict_remove (k : string) (kvs : list (string * value)) : list (string * value) :=
  match kvs with
  | [] => []
  | (k', v) :: rest =>
      if (k =? k')%string then dict_remove k rest else (k', v) :: dict_remove k rest
  end.

(** A member in front of the members read behind it: a repeated key keeps
    its first place and its last value, as [dict] does. *)
Definition dict_cons (k : string) (v : value) (kvs : list (string * value)) :
    list (string * value) :=
  match dict_lookup k kvs with
  | Some v' => (k, v') :: dict_remove k kvs
  | None => (k, v) :: kvs
  end.

Fixpoint read_value (fuel : nat) (s : string) : option (value * string) :=
  match fuel with
  | O => None
  | S fuel =>
      match skip_ws s with
      | EmptyString => None
      | String c s' =>
          let n := nat_of_ascii c in
          if (n =? 91)%nat then
            match skip_ws s' with
            | EmptyString => None
            | String c2 s2 =>
                if (nat_of_ascii c2 =? 93)%nat then Some (VList [], s2)
                else match read_elements fuel (String c2 s2) with
                     | Some (vs, rest) => Some (VList vs, rest)
                     | None => None
                     end
            end
          else if (n =? 123)%nat then
            match skip_ws s' with
            | EmptyString => None
            | String c2 s2 =>
                if (nat_of_ascii c2 =? 125)%nat then Some (VDict [], s2)
                else match read_members fuel (String c2 s2) with
                     | Some (kvs, rest) => Some (VDict kvs, rest)
                     | None => None
                     end
            end
          else if (n =? 34)%nat then
            match read_string s' with
            | Some (str, rest) => Some (VStr str, rest)
            | None => None
            end
          else if prefix "true" (String c s') then Some (VBool true, string_drop 3 s')
          else if prefix "false" (String c s') then Some (VBool false, string_drop 4 s')
          else if prefix "null" (String c s') then Some (VNone, string_drop 3 s')
          else read_int (String c s')
      end
  end
with read_elements (fuel : nat) (s : string) : option (list value * string) :=
  match fuel with
  | O => None
  | S fuel =>
      match read_value fuel s with
      | None => None
      | Some (v, rest) =>
          match skip_ws rest with
          | EmptyString => None
          | String c r =>
              if (nat_of_ascii c =? 44)%nat then
                match read_elements fuel r with
                | Some (vs, rest') => Some (v :: vs, rest')
                | None => None
                end
              else if (nat_of_ascii c =? 93)%nat then Some ([v], r)
              else None
          end
      end
  end
with read_members (fuel : nat) (s : string) : option (list (string * value) * string) :=
  match fuel with
  | O => None
  | S fuel =>
      match skip_ws s with
      | EmptyString => None
      | String q s1 =>
          if negb (nat_of_ascii q =? 34)%nat then None
          else
            match read_string s1 with
            | None => None
            | Some (k, r1) =>
                match skip_ws r1 with
                | EmptyString => None
                | String colon r2 =>
                    if negb (nat_of_ascii colon =? 58)%nat then None
                    else
                      match read_value fuel r2 with
                      | None => None
                      | Some (v, r3) =>
                          match skip_ws r3 with
                          | EmptyString => None
                          | String c r4 =>
                              if (nat_of_ascii c =? 44)%nat then
                                match read_members fuel r4 with
                                | Some (kvs, r5) => Some (dict_cons k v kvs, r5)
                                | None => None
                                end
                              else if (nat_of_ascii c =? 125)%nat then Some ([(k, v)], r4)
                              else None
                          end
                      end
                end
            end
      end
  end.

Definition json_loads_ref (s : string) : option value :=
  match read_value (2 * String.length s + 2) s with
  | Some (v, rest) =>
      match skip_ws rest with
      | EmptyString => Some v
      | _ => None
      end
  | None => None
  end.

(** The two [except] clauses of [call_gemini_api]: of what the body of the
    [try] raises, only the two caught classes become the failure signal. *)
Definition caught (r : res value) : res value :=
  match r with
  | Raise RequestException | Raise JSONDecodeError => Ret VNone
  | other => other
  end.

(** ** The requests a helper sends and the value it hands back *)

Definition gemini_call {W : World} (prompt : string) (response_schema : value) : outbound :=
  Post GEMINI_API_URL [ ("Content-Type", VStr "application/json") ]
       [ ("key", VStr GOOGLE_API_KEY) ] (gemini_payload prompt response_schema) 30.

Definition youtube_call {W : World} (query : string) : outbound :=
  Get YOUTUBE_SEARCH_URL
      [ ("key", VStr YOUTUBE_API_KEY); ("q", VStr query); ("part", VStr "snippet");
        ("type", VStr "video"); ("maxResults", VInt 5);
        ("videoEmbeddable", VStr "true") ] 10.

(** What [call_gemini_api(prompt, response_schema)] returns or raises. *)
Definition completion_of {W : World} (prompt : string) (response_schema : value) : res value :=
  fst (call_gemini_api prompt response_schema []).

(** What [search_youtube_videos(query)] returns. *)
Definition search_of {W : World} (query : string) : res value :=
  fst (search_youtube_videos query []).

(** The completion request of each handler for the value of its field. *)
Definition completion_prompt {W : World} (h : handler) (field : value) : string :=
  match h with
  | ExtractTitle => title_prompt field
  | ExtractTopics => topics_prompt field
  | SuggestVideo => video_prompt field
  | GenerateNotes => notes_prompt field
  | GenerateFlashcards => flashcards_prompt field
  | GenerateQuestions => questions_prompt field
  end.

Definition completion_schema (h : handler) : value :=
  match h with
  | ExtractTitle | GenerateNotes => VNone
  | ExtractTopics => topics_schema
  | SuggestVideo => video_schema
  | GenerateFlashcards => flashcards_schema
  | GenerateQuestions => questions_schema
  end.

(** ** The specification's vocabulary *)

(** The two markers the fence removal deletes. *)
Definition opening_fence : string := "```json" ++ nl.
Definition closing_fence : string := nl ++ "```".

(** A payload wrapped in a markdown code fence. *)
Definition fenced (p : string) : string := opening_fence ++ p ++ closing_fence.

(** Texts woven from pieces and markers. *)
Inductive marker : Type := Opening | Closing.

Definition marker_text (m : marker) : string :=
  match m with
  | Opening => opening_fence
  | Closing => closing_fence
  end.

(** Pieces of text, each with a marker in front of it. *)
Fixpoint weave (rest : list (marker * string)) : string :=
  match rest with
  | [] => ""
  | (m, t) :: more => marker_text m ++ t ++ weave more
  end.

(** The pieces alone. *)
Fixpoint pieces (rest : list (marker * string)) : string :=
  match rest with
  | [] => ""
  | (_, t) :: more => t ++ pieces more
  end.




(** [title] contains [keyword] up to the case of its letters. *)
Definition mentions (keyword title : string) : Prop :=
  exists before hit after,
    title = before ++ hit ++ after /\ py_lower hit = py_lower keyword.

(** A title the heuristic prefers (section 4.3, step 1). *)
Definition lecture_title (title : string) : Prop :=
  mentions "lecture" title \/ mentions "tutorial" title \/ mentions "course" title.

(** A search result seen as a candidate: its title and its video id. *)
Definition candidate : Type := (string * string)%type.

Definition is_candidate (item : value) (c : candidate) : Prop :=
  (snippet <~ py_item item "snippet" ;; py_item snippet "title") = Ret (VStr (fst c))
  /\ (id <~ py_item item "id" ;; py_item id "videoId") = Ret (VStr (snd c)).

(** The suggestion built from a candidate. *)
Definition suggestion (c : candidate) : value :=
  VDict [ ("title", VStr (fst c));
          ("url", VStr ("https://www.youtube.com/watch?v=" ++ snd c)) ].

(** The topic an entry of the upstream array contributes, if any. *)
Definition usable_topic (item : value) : option value :=
  match item with
  | VDict kvs =>
      match dict_lookup "topic" kvs with
      | Some t => if truthy t then Some t else None
      | None => None
      end
  | _ => None
  end.

Fixpoint usable_topics (items : list value) : list value :=
  match items with
  | [] => []
  | item :: rest =>
      match usable_topic item with
      | Some t => t :: usable_topics rest
      | None => usable_topics rest
      end
  end.

Definition is_object (v : value) : Prop := exists kvs, v = VDict kvs.

(** An entry as the topics schema types it: an object whose [topic], when
    it counts, is a string. *)
Definition string_topic (item : value) : Prop :=
  forall t, usable_topic item = Some t -> exists s, t = VStr s.

(** The failure values section 3 lists: an empty array, a placeholder string,
    the ["#"] URL. *)
Definition documented_sentinel (v : value) : Prop :=
  v = VList [] \/ exists s, v = VStr s /\ s <> "".

(** What each handler answers when its upstream calls give nothing. *)
Definition degraded_body (h : handler) : value :=
  match h with
  | ExtractTitle => VDict [ ("title", VNone) ]
  | ExtractTopics => VDict [ ("topics", VList []) ]
  | SuggestVideo => failed_video
  | GenerateNotes => VDict [ ("notes", VStr "Could not generate notes for this topic.") ]
  | GenerateFlashcards => VDict [ ("flashcards", VList []) ]
  | GenerateQuestions => VDict [ ("questions", VList []) ]
  end.

(** ** Worlds for the worked examples *)

(** A completion response carrying one part. *)
Definition completion_body (part : value) : value :=
  VDict [ ("candidates",
           VList [ VDict [ ("content", VDict [ ("parts", VList [ part ]);
                                               ("role", VStr "model") ]);
                           ("finishReason", VStr "STOP") ] ]) ].

Definition text_part (text : string) : value := VDict [ ("text", VStr text) ].

Definition search_item (title video_id : string) : value :=
  VDict [ ("kind", VStr "youtube#searchResult");
          ("id", VDict [ ("kind", VStr "youtube#video"); ("videoId", VStr video_id) ]);
          ("snippet", VDict [ ("title", VStr title) ]) ].

Definition search_body (items : list value) : value :=
  VDict [ ("kind", VStr "youtube#searchListResponse"); ("items", VList items) ].

(** A world in which the completion service answers [completion] and the
    search service answers [search], whatever is asked.  Its [py_str] is
    never called: the examples only format strings. *)
Definition example_world (completion search : http_outcome) : World :=
  {| GOOGLE_API_KEY := "google-key";
     YOUTUBE_API_KEY := "youtube-key";
     py_str := fun _ => EmptyString;
     json_loads := json_loads_ref;
     remote := fun call =>
                 match call with
                 | Post _ _ _ _ _ => completion
                 | Get _ _ _ => search
                 end |}.

Definition completes (text : string) : http_outcome :=
  Response 200 (Some (completion_body (text_part text))).

Definition finds (items : list value) : http_outcome :=
  Response 200 (Some (search_body items)).

(** The environment at start-up: nothing set, only one key set, both set. *)
Definition empty_env : string -> option string := fun _ => None.

Definition env_of (bindings : list (string * string)) : string -> option string :=
  fun name =>
    match find (fun kv => (fst kv =? name)%string) bindings with
    | Some kv => Some (snd kv)
    | None => None
    end.

(** A request body carrying [text] in the field the handler reads. *)
Definition request_for (h : handler) (text : string) : value :=
  VDict [ (required_field h, VStr text) ].

Definition quoted (s : string) : string := dq ++ s ++ dq.

(** Both services unreachable. *)
Definition down_world : World := example_world NoResponse NoResponse.

(** The completion service answers 200 with a first part that carries a
    function call and no [text] member:
    [{"candidates": [{"content": {"parts": [{"functionCall": {"name": "search"}}],
                                  "role": "model"},
                      "finishReason": "STOP"}]}]. *)
Definition textless_part : list (string * value) :=
  [ ("functionCall", VDict [ ("name", VStr "search") ]) ].

Definition textless_world : World :=
  example_world (Response 200 (Some (completion_body (VDict textless_part)))) NoResponse.

(** [[{"topic":"Graphs"},{},{"topic":"Trees"}]] *)
Definition graphs_trees_text : string :=
  "[{" ++ quoted "topic" ++ ":" ++ quoted "Graphs" ++ "},{},{"
  ++ quoted "topic" ++ ":" ++ quoted "Trees" ++ "}]".

(** [[{"topic":"Graphs"},{"topic":""},{"topic":null},{}]] *)
Definition blank_topics_text : string :=
  "[{" ++ quoted "topic" ++ ":" ++ quoted "Graphs" ++ "},{"
  ++ quoted "topic" ++ ":" ++ quoted "" ++ "},{"
  ++ quoted "topic" ++ ":null},{}]".

(** [[{"topic": 5}]]: a topic that is a number. *)
Definition numeric_topic_text : string :=
  "[{" ++ quoted "topic" ++ ": 5}]".

(** [[{"front": "Q"}]]: a flashcard without its [back]. *)
Definition one_sided_flashcard_text : string :=
  "[{" ++ quoted "front" ++ ": " ++ quoted "Q" ++ "}]".

(** [{"title": "Graph Theory Basics", "url": "https://www.youtube.com/watch?v=abcdefghijk"}] *)
Definition generated_video_text : string :=
  "{" ++ quoted "title" ++ ": " ++ quoted "Graph Theory Basics" ++ ", "
  ++ quoted "url" ++ ": " ++ quoted "https://www.youtube.com/watch?v=abcdefghijk" ++ "}".

(** The three search results of section 8. *)
Definition three_candidates : list candidate :=
  [ ("Intro to X", "v1"); ("X Lecture Series", "v2"); ("X Explained", "v3") ].

Definition three_videos : list value :=
  map (fun c => search_item (fst c) (snd c)) three_candidates.

Definition lecture_series_world : World :=
  example_world NoResponse (finds three_videos).



(** An answer whose first part carries a number where the text should be. *)
Definition numeric_text_answer : value :=
  completion_body (VDict [ ("text", VInt 5) ]).

(** The message of the 400 answer of each handler. *)
Definition error_message (h : handler) : string :=
  match h with
  | ExtractTitle | ExtractTopics => "Syllabus text is required"
  | _ => "Topic is required"
  end.

(** ** Vocabulary for the scan of [str.replace] *)

(** No occurrence of [old] in [s ++ t] starts in [s] and ends in [t]. *)
Definition no_straddle (old s t : string) : Prop :=
  forall a x, s = a ++ x -> x <> "" ->
    (String.length x < String.length old)%nat -> prefix old (x ++ t) = false.

(** No proper, non-empty end of [old] is also a beginning of it: two
    occurrences of [old] never overlap. *)
Definition borderless (old : string) : bool :=
  forallb (fun k => negb (prefix (string_drop k old) old))
          (seq 1 (String.length old - 1)).

(** ** Vocabulary for the reference decoder *)

(** The characters a JSON value can end with in the decoder's fragment:
    a closing bracket, brace or quote, a digit, the last letter of a literal. *)
Definition closes (c : ascii) : bool :=
  let n := nat_of_ascii c in
  ((n =? 93) || (n =? 125) || (n =? 34) || (n =? 101) || (n =? 108))%nat || is_digit c.

(** [s] is some text ending with such a character, then [rest]. *)
Definition closed_before (s rest : string) : Prop :=
  exists pre c, s = pre ++ String c rest /\ closes c = true.

Fixpoint last_char (s : string) : option ascii :=
  match s with
  | EmptyString => None
  | String c EmptyString => Some c
  | String _ s' => last_char s'
  end.

(** ** Vocabulary for the further properties *)

(** [result["candidates"][0]["content"]["parts"][0]["text"]] *)
Definition first_text (result : value) : res value :=
  candidate <~ first_candidate result ;;
  content <~ py_item candidate "content" ;;
  parts <~ py_item content "parts" ;;
  part <~ py_index parts 0 ;;
  py_item part "text".

(** A decoded answer of the completion service on which the guard of
    [call_gemini_api] is false: no [candidates] (missing, [null], empty),
    or a first candidate without [content], or a content without [parts]. *)
Inductive lacks_parts : value -> Prop :=
| lacks_candidates (kvs : list (string * value)) (candidates : value) :
    py_get (VDict kvs) "candidates" = Ret candidates ->
    truthy candidates = false ->
    lacks_parts (VDict kvs)
| lacks_content (kvs candidate : list (string * value)) (others : list value)
    (content : value) :
    dict_lookup "candidates" kvs = Some (VList (VDict candidate :: others)) ->
    py_get (VDict candidate) "content" = Ret content ->
    truthy content = false ->
    lacks_parts (VDict kvs)
| lacks_part_list (kvs candidate content : list (string * value)) (others : list value)
    (parts : value) :
    dict_lookup "candidates" kvs = Some (VList (VDict candidate :: others)) ->
    dict_lookup "content" candidate = Some (VDict content) ->
    py_get (VDict content) "parts" = Ret parts ->
    truthy parts = false ->
    lacks_parts (VDict kvs).

(** The exception classes no [except] clause of [call_gemini_api] names. *)
Definition uncaught (e : exn) : Prop :=
  e <> RequestException /\ e <> JSONDecodeError.

Fixpoint all_space (s : string) : bool :=
  match s with
  | EmptyString => true
  | String c s' => is_space c && all_space s'
  end.

(** No white space at either end. *)
Definition trimmed (s : string) : Prop := py_strip s = s.

(** The answer of the completion service to a prompt it blocks: feedback
    and no candidates,
    [{"promptFeedback": {"blockReason": "SAFETY"}}]. *)
Definition blocked_answer : value :=
  VDict [ ("promptFeedback", VDict [ ("blockReason", VStr "SAFETY") ]) ].

(** An answer with two candidates, the first with two parts:
    [{"candidates": [{"content": {"parts": [{"text": first}, {"text": "more"}]}},
                     {"content": {"parts": [{"text": "other"}]}}]}]. *)
Definition two_candidates (first : string) : value :=
  VDict [ ("candidates",
           VList [ VDict [ ("content",
                            VDict [ ("parts", VList [ text_part first; text_part "more" ]) ]) ];
                   VDict [ ("content",
                            VDict [ ("parts", VList [ text_part "other" ]) ]) ] ]) ].

(** A search result the loop of [search_youtube_videos] cannot read: no
    [id.videoId], no [snippet.title], or a title that is not a string. *)
Definition unreadable (item : value) : Prop :=
  (exists e, (id <~ py_item item "id" ;; py_item id "videoId") = Raise e)
  \/ (exists e, (snippet <~ py_item item "snippet" ;; py_item snippet "title") = Raise e)
  \/ (exists title, (snippet <~ py_item item "snippet" ;; py_item snippet "title") = Ret title
                    /\ forall s, title <> VStr s).

(** A channel among the results: its [id] carries a [channelId]. *)
Definition channel_item (title channel_id : string) : value :=
  VDict [ ("kind", VStr "youtube#searchResult");
          ("id", VDict [ ("kind", VStr "youtube#channel"); ("channelId", VStr channel_id) ]);
          ("snippet", VDict [ ("title", VStr title) ]) ].

(** * Properties *)

(** ** Strings *)

Module StringFacts.

Lemma append_nil_r (s : string) : s ++ "" = s.
Proof. induction s as [|c s IH]; simpl; [reflexivity | now rewrite IH]. Qed.

Lemma append_assoc (a b c : string) : (a ++ b) ++ c = a ++ b ++ c.
Proof. induction a as [|x a IH]; simpl; [reflexivity | now rewrite IH]. Qed.

Lemma length_append (a b : string) :
  String.length (a ++ b) = (String.length a + String.length b)%nat.
Proof. induction a as [|x a IH]; simpl; [reflexivity | now rewrite IH]. Qed.

Lemma prefix_nil (s : string) : prefix "" s = true.
Proof. destruct s; reflexivity. Qed.

Lemma prefix_cons (a b : ascii) (p s : string) :
  prefix (String a p) (String b s) = true <-> a = b /\ prefix p s = true.
Proof.
  simpl. destruct (ascii_dec a b) as [e | n].
  - split; [intros H; now split | now intros [_ H]].
  - split; [discriminate | intros [e _]; contradiction].
Qed.

Lemma prefix_append (p r : string) : prefix p (p ++ r) = true.
Proof.
  induction p as [|a p IH]; simpl.
  - apply prefix_nil.
  - destruct (ascii_dec a a); [exact IH | congruence].
Qed.

Lemma prefix_split (p s : string) :
  prefix p s = true -> exists r, s = p ++ r.
Proof.
  revert s. induction p as [|a p IH]; intros s H.
  - now exists s.
  - destruct s as [|b s]; [discriminate H |].
    apply prefix_cons in H as [-> H].
    destruct (IH _ H) as [r ->]. now exists r.
Qed.

Lemma prefix_length (p s : string) :
  prefix p s = true -> (String.length p <= String.length s)%nat.
Proof.
  intros H. destruct (prefix_split _ _ H) as [r ->].
  rewrite length_append. lia.
Qed.

Lemma prefix_extend (p s t : string) :
  prefix p s = true -> prefix p (s ++ t) = true.
Proof.
  intros H. destruct (prefix_split _ _ H) as [r ->].
  rewrite append_assoc. apply prefix_append.
Qed.

(** A prefix of [s ++ t] no longer than [s] is a prefix of [s]. *)
Lemma prefix_within (p s t : string) :
  prefix p (s ++ t) = true -> (String.length p <= String.length s)%nat ->
  prefix p s = true.
Proof.
  revert s. induction p as [|a p IH]; intros s H L.
  - apply prefix_nil.
  - destruct s as [|b s]; [simpl in L; lia |].
    simpl in H. apply prefix_cons in H as [-> H].
    apply prefix_cons. split; [reflexivity |].
    apply IH; [exact H | simpl in L; lia].
Qed.

(** When [p] runs over the end of [x] in [x ++ t], the rest of [p] starts [t]. *)
Lemma prefix_straddle (p x t : string) :
  prefix p (x ++ t) = true -> (String.length x <= String.length p)%nat ->
  prefix x p = true /\ prefix (string_drop (String.length x) p) t = true.
Proof.
  revert p. induction x as [|b x IH]; intros p H L.
  - split; [apply prefix_nil | exact H].
  - destruct p as [|a p]; [simpl in L; lia |].
    simpl in H. apply prefix_cons in H as [-> H].
    destruct (IH p H) as [H1 H2]; [simpl in L; lia |].
    split; [apply prefix_cons; now split | exact H2].
Qed.

Lemma contains_nil (needle : string) :
  py_contains needle "" = true -> needle = "".
Proof. destruct needle; simpl; [reflexivity | discriminate]. Qed.

Lemma contains_cons (needle : string) (c : ascii) (hay : string) :
  py_contains needle (String c hay)
  = prefix needle (String c hay) || py_contains needle hay.
Proof. reflexivity. Qed.

Lemma contains_prefix (needle hay : string) :
  prefix needle hay = true -> py_contains needle hay = true.
Proof.
  intros H. destruct hay as [|c hay].
  - destruct needle; [reflexivity | discriminate H].
  - rewrite contains_cons, H. reflexivity.
Qed.

Lemma contains_intro (needle before after : string) :
  py_contains needle (before ++ needle ++ after) = true.
Proof.
  induction before as [|c before IH].
  - change ("" ++ needle ++ after) with (needle ++ after).
    apply contains_prefix. apply prefix_append.
  - simpl append. rewrite contains_cons, IH. apply orb_true_r.
Qed.

Lemma contains_split (needle hay : string) :
  py_contains needle hay = true -> exists before after, hay = before ++ needle ++ after.
Proof.
  induction hay as [|c hay IH]; intros H.
  - apply contains_nil in H. subst. now exists "", "".
  - rewrite contains_cons in H. apply orb_true_iff in H as [H | H].
    + destruct (prefix_split _ _ H) as [r E]. exists "", r. exact E.
    + destruct (IH H) as (b & a & ->). now exists (String c b), a.
Qed.

Lemma endswith_intro (before suffix : string) :
  py_endswith (before ++ suffix) suffix = true.
Proof.
  induction before as [|c before IH].
  - simpl. destruct suffix; simpl; rewrite ?String.eqb_refl, ?Ascii.eqb_refl; reflexivity.
  - simpl append. simpl py_endswith. rewrite IH. apply orb_true_r.
Qed.

Lemma lower_append (a b : string) : py_lower (a ++ b) = py_lower a ++ py_lower b.
Proof. induction a as [|c a IH]; simpl; [reflexivity | now rewrite IH]. Qed.

Lemma lower_length (s : string) : String.length (py_lower s) = String.length s.
Proof. induction s as [|c s IH]; simpl; [reflexivity | now rewrite IH]. Qed.

(** A split of the lowered text comes from a split of the text. *)
Lemma lower_split (s a' b' : string) :
  py_lower s = a' ++ b' ->
  exists a b, s = a ++ b /\ py_lower a = a' /\ py_lower b = b'.
Proof.
  revert s. induction a' as [|c a' IH]; intros s H.
  - exists "", s. now repeat split.
  - destruct s as [|x s]; [discriminate H |].
    simpl in H. injection H as Hc Hs.
    destruct (IH _ Hs) as (a & b & -> & Ha & Hb).
    exists (String x a), b. simpl. now rewrite Hc, Ha.
Qed.

(** [keyword in title.lower()] is containment up to case. *)
Lemma contains_lower_mentions (keyword title : string) :
  py_lower keyword = keyword ->
  py_contains keyword (py_lower title) = true <-> mentions keyword title.
Proof.
  intros K. split.
  - intros H. apply contains_split in H as (b' & a' & E).
    apply lower_split in E as (b & rest & -> & Hb & E).
    apply lower_split in E as (hit & a & -> & Hh & Ha).
    exists b, hit, a. split; [reflexivity | now rewrite K].
  - intros (b & hit & a & -> & E).
    rewrite !lower_append, E, K. apply contains_intro.
Qed.

Lemma looks_like_lecture_spec (title : string) :
  looks_like_lecture (py_lower title) = true <-> lecture_title title.
Proof.
  unfold looks_like_lecture, lecture_title.
  rewrite !orb_true_iff, !contains_lower_mentions by reflexivity.
  tauto.
Qed.

End StringFacts.

(** ** The scan of [str.replace] *)

Module ReplaceFacts.
Import StringFacts.

Lemma replace_from_cons (old new : string) (c : ascii) (s : string) :
  replace_from old new 0 (String c s)
  = if prefix old (String c s)
    then new ++ replace_from old new (String.length old - 1) s
    else String c (replace_from old new 0 s).
Proof. reflexivity. Qed.

Lemma replace_from_skip (old new x s : string) :
  replace_from old new (String.length x) (x ++ s) = replace_from old new 0 s.
Proof. induction x as [|c x IH]; simpl; [reflexivity | exact IH]. Qed.

(** At an occurrence the scan emits [new] and resumes behind it. *)
Lemma replace_from_hit (old new s : string) :
  old <> "" ->
  replace_from old new 0 (old ++ s) = new ++ replace_from old new 0 s.
Proof.
  destruct old as [|c old]; [congruence | intros _].
  pose proof (prefix_append (String c old) s) as P.
  change (String c old ++ s) with (String c (old ++ s)) in *.
  rewrite replace_from_cons, P.
  change (String.length (String c old) - 1)%nat with (String.length old - 0)%nat.
  rewrite Nat.sub_0_r, replace_from_skip. reflexivity.
Qed.

Lemma replace_from_absent (old new s : string) :
  py_contains old s = false -> replace_from old new 0 s = s.
Proof.
  induction s as [|c s IH]; intros H; [reflexivity |].
  rewrite contains_cons in H. apply orb_false_iff in H as [H1 H2].
  rewrite replace_from_cons, H1, (IH H2). reflexivity.
Qed.



Lemma no_straddle_tail (old : string) (c : ascii) (s t : string) :
  no_straddle old (String c s) t -> no_straddle old s t.
Proof. intros G a x -> Hx L. apply (G (String c a) x); auto. Qed.

(** Without an occurrence across the seam, the scan of [s ++ t] is the scan
    of [s] followed by the scan of [t]. *)
Lemma replace_from_append (old new : string) (s t : string) (k : nat) :
  no_straddle old s t -> (k <= String.length s)%nat ->
  replace_from old new k (s ++ t)
  = replace_from old new k s ++ replace_from old new 0 t.
Proof.
  revert k. induction s as [|c s IH]; intros k G L.
  - simpl in L. replace k with 0%nat by lia. reflexivity.
  - pose proof (no_straddle_tail _ _ _ _ G) as G'.
    destruct k as [|k].
    + change (String c s ++ t) with (String c (s ++ t)).
      rewrite !replace_from_cons.
      destruct (prefix old (String c s)) eqn:P.
      * pose proof (prefix_extend _ _ t P) as P'.
        change (String c s ++ t) with (String c (s ++ t)) in P'. rewrite P'.
        rewrite IH; [now rewrite append_assoc | exact G' |].
        apply prefix_length in P. simpl in P. lia.
      * destruct (prefix old (String c (s ++ t))) eqn:P'.
        -- change (String c (s ++ t)) with (String c s ++ t) in P'.
           destruct (Nat.le_gt_cases (String.length old) (String.length (String c s))) as [Le | Gt].
           ++ apply (prefix_within old (String c s) t) in P'; [congruence | exact Le].
           ++ rewrite (G "" (String c s)) in P'; [discriminate | reflexivity | discriminate | exact Gt].
        -- rewrite IH; [reflexivity | exact G' | lia].
    + simpl in L. simpl replace_from. apply IH; [exact G' | lia].
Qed.

Lemma string_drop_length (k : nat) (s : string) :
  String.length (string_drop k s) = (String.length s - k)%nat.
Proof.
  revert s. induction k as [|k IH]; intros s; destruct s as [|c s]; simpl; auto.
Qed.

(** A borderless marker is never matched across the seam in front of one of
    its own occurrences. *)
Lemma borderless_no_straddle (old s after : string) :
  borderless old = true -> no_straddle old s (old ++ after).
Proof.
  intros B a x _ Hx L.
  destruct (prefix old (x ++ old ++ after)) eqn:P; [exfalso | reflexivity].
  apply prefix_straddle in P as [_ P]; [| lia].
  apply prefix_within in P; [| rewrite string_drop_length; lia].
  unfold borderless in B. rewrite forallb_forall in B.
  specialize (B (String.length x)). rewrite P in B.
  assert (In (String.length x) (seq 1 (String.length old - 1))) as I.
  { apply in_seq. destruct x; [congruence | simpl in *; lia]. }
  specialize (B I). discriminate B.
Qed.


End ReplaceFacts.

(** ** The fence removal *)

Module FenceFacts.
Import StringFacts ReplaceFacts.





Lemma closing_fence_borderless : borderless closing_fence = true.
Proof. reflexivity. Qed.

Lemma opening_fence_nonempty : opening_fence <> "".
Proof. discriminate. Qed.


Lemma clean_json_string_eq (text : string) :
  clean_json_string text
  = py_strip (replace_from closing_fence "" 0 (replace_from opening_fence "" 0 text)).
Proof. reflexivity. Qed.

(** The only way the opening marker can be matched across the seam in front
    of a closing marker: the text in front ends with the marker less its
    line feed. *)
Lemma opening_across_closing (p : string) :
  py_endswith p "```json" = false -> no_straddle opening_fence p closing_fence.
Proof.
  intros E a x -> Hx L.
  destruct (prefix opening_fence (x ++ closing_fence)) eqn:P; [exfalso | reflexivity].
  apply prefix_straddle in P as [P1 P2]; [| lia].
  apply prefix_correct in P1.
  change (String.length opening_fence) with 8%nat in L.
  remember (String.length x) as n eqn:Hn.
  destruct n as [|[|[|[|[|[|[|[|n]]]]]]]]; try lia;
    try (vm_compute in P2; discriminate P2).
  vm_compute in P1. subst x. rewrite endswith_intro in E. discriminate E.
Qed.

End FenceFacts.

(** ** The reference decoder *)

Module DecoderFacts.
Import StringFacts.

Lemma skip_ws_split (s : string) : exists w, s = w ++ skip_ws s.
Proof.
  induction s as [|c s [w IH]]; [now exists "" |].
  simpl. destruct (is_json_ws c).
  - exists (String c w). simpl. now rewrite <- IH.
  - now exists "".
Qed.

Lemma closed_before_app (a s rest : string) :
  closed_before s rest -> closed_before (a ++ s) rest.
Proof.
  intros (pre & c & -> & C). exists (a ++ pre), c.
  now rewrite append_assoc.
Qed.

Lemma closed_before_cons (c : ascii) (s rest : string) :
  closed_before s rest -> closed_before (String c s) rest.
Proof. apply (closed_before_app (String c "")). Qed.

Lemma closed_before_skip (s s' rest : string) :
  skip_ws s = s' -> closed_before s' rest -> closed_before s rest.
Proof.
  intros <- C. destruct (skip_ws_split s) as [w E]. rewrite E at 1.
  now apply closed_before_app.
Qed.

Lemma closed_here (c : ascii) (rest : string) :
  closes c = true -> closed_before (String c rest) rest.
Proof. intros C. now exists "", c. Qed.

Lemma read_string_closed (n : nat) (s str rest : string) :
  (String.length s <= n)%nat ->
  read_string s = Some (str, rest) -> closed_before s rest.
Proof.
  revert s str. induction n as [|n IH]; intros s str L H.
  - destruct s; [discriminate H | simpl in L; lia].
  - destruct s as [|c s]; [discriminate H |].
    cbn [read_string] in H. cbv zeta in H.
    destruct (nat_of_ascii c =? 34)%nat eqn:Q.
    + injection H as _ <-. apply closed_here. unfold closes. cbv zeta. now rewrite Q, !orb_true_r.
    + destruct (nat_of_ascii c =? 92)%nat.
      * destruct s as [|e s]; [discriminate H |].
        destruct (unescape e); [| discriminate H].
        destruct (read_string s) as [[body r]|] eqn:R; [| discriminate H].
        injection H as _ <-. do 2 apply closed_before_cons.
        apply (IH s body); [simpl in L; lia | exact R].
      * destruct (nat_of_ascii c <? 32)%nat; [discriminate H |].
        destruct (read_string s) as [[body r]|] eqn:R; [| discriminate H].
        injection H as _ <-. apply closed_before_cons.
        apply (IH s body); [simpl in L; lia | exact R].
Qed.

Lemma digit_closes (c : ascii) : is_digit c = true -> closes c = true.
Proof. intros D. unfold closes. cbv zeta. rewrite D. apply orb_true_r. Qed.

Lemma read_digits_closed (acc : Z) (s : string) (n : Z) (rest : string) :
  read_digits acc s = (n, rest) -> rest = s \/ closed_before s rest.
Proof.
  revert acc. induction s as [|c s IH]; intros acc H.
  - injection H as _ <-. now left.
  - cbn [read_digits] in H. destruct (is_digit c) eqn:D.
    + right. destruct (IH _ H) as [-> | C].
      * apply closed_here. now apply digit_closes.
      * now apply closed_before_cons.
    + injection H as _ <-. now left.
Qed.

Lemma read_natural_closed (s : string) (n : Z) (rest : string) :
  read_natural s = Some (n, rest) -> closed_before s rest.
Proof.
  destruct s as [|c s]; [discriminate |]. cbn [read_natural].
  destruct (nat_of_ascii c =? 48)%nat eqn:Z0.
  - intros H. injection H as _ <-. apply closed_here. apply digit_closes.
    unfold is_digit. cbv zeta. apply Nat.eqb_eq in Z0. now rewrite Z0.
  - destruct (is_digit c) eqn:D; [| discriminate].
    intros H. injection H as H. cbn [read_digits] in H. rewrite D in H.
    destruct (read_digits_closed _ _ _ _ H) as [-> | C].
    + apply closed_here. now apply digit_closes.
    + now apply closed_before_cons.
Qed.

Lemma read_int_closed (s : string) (v : value) (rest : string) :
  read_int s = Some (v, rest) -> closed_before s rest.
Proof.
  unfold read_int. destruct s as [|c s]; [discriminate |].
  destruct (nat_of_ascii c =? 45)%nat.
  - destruct (read_natural s) as [[n r]|] eqn:R; [| discriminate].
    destruct (starts_fraction r); [discriminate |].
    intros H. injection H as _ <-. apply closed_before_cons.
    now apply read_natural_closed in R.
  - destruct (read_natural (String c s)) as [[n r]|] eqn:R; [| discriminate].
    destruct (starts_fraction r); [discriminate |].
    intros H. injection H as _ <-. now apply read_natural_closed in R.
Qed.

Lemma literal_closed (lit s : string) (c : ascii) :
  prefix (lit ++ String c "") s = true -> closes c = true ->
  closed_before s (string_drop (String.length lit + 1) s).
Proof.
  intros P C. apply prefix_split in P as [r ->].
  rewrite append_assoc. exists lit, c. split; [| exact C].
  f_equal. f_equal. clear. induction lit as [|x lit IH]; [reflexivity | exact IH].
Qed.

Lemma read_json_closed (fuel : nat) :
  (forall s v rest, read_value fuel s = Some (v, rest) -> closed_before s rest)
  /\ (forall s vs rest, read_elements fuel s = Some (vs, rest) -> closed_before s rest)
  /\ (forall s kvs rest, read_members fuel s = Some (kvs, rest) -> closed_before s rest).
Proof.
  induction fuel as [|fuel (IHv & IHe & IHm)]; [repeat split; discriminate |].
  split; [| split].
  - intros s v rest H. cbn [read_value] in H.
    destruct (skip_ws s) as [|c s'] eqn:W; [discriminate H |].
    apply (closed_before_skip _ _ _ W). cbv zeta in H.
    destruct (nat_of_ascii c =? 91)%nat.
    { destruct (skip_ws s') as [|c2 s2] eqn:W2; [discriminate H |].
      apply closed_before_cons, (closed_before_skip _ _ _ W2).
      destruct (nat_of_ascii c2 =? 93)%nat eqn:B.
      - injection H as _ <-. apply closed_here. unfold closes. cbv zeta. now rewrite B.
      - destruct (read_elements fuel (String c2 s2)) as [[vs r]|] eqn:R; [| discriminate H].
        injection H as _ <-. exact (IHe _ _ _ R). }
    destruct (nat_of_ascii c =? 123)%nat.
    { destruct (skip_ws s') as [|c2 s2] eqn:W2; [discriminate H |].
      apply closed_before_cons, (closed_before_skip _ _ _ W2).
      destruct (nat_of_ascii c2 =? 125)%nat eqn:B.
      - injection H as _ <-. apply closed_here. unfold closes. cbv zeta.
        now rewrite B, !orb_true_r.
      - destruct (read_members fuel (String c2 s2)) as [[kvs r]|] eqn:R; [| discriminate H].
        injection H as _ <-. exact (IHm _ _ _ R). }
    destruct (nat_of_ascii c =? 34)%nat.
    { destruct (read_string s') as [[str r]|] eqn:R; [| discriminate H].
      injection H as _ <-. apply closed_before_cons.
      exact (read_string_closed _ _ _ _ (le_n _) R). }
    destruct (prefix "true" (String c s')) eqn:Pt.
    { injection H as _ <-. exact (literal_closed "tru" _ "e" Pt eq_refl). }
    destruct (prefix "false" (String c s')) eqn:Pf.
    { injection H as _ <-. exact (literal_closed "fals" _ "e" Pf eq_refl). }
    destruct (prefix "null" (String c s')) eqn:Pn.
    { injection H as _ <-. exact (literal_closed "nul" _ "l" Pn eq_refl). }
    exact (read_int_closed _ _ _ H).
  - intros s vs rest H. cbn [read_elements] in H.
    destruct (read_value fuel s) as [[v r]|] eqn:R; [| discriminate H].
    apply IHv in R. destruct R as (pre & c0 & -> & C0).
    destruct (skip_ws r) as [|c r'] eqn:W; [discriminate H |].
    apply closed_before_app, closed_before_cons, (closed_before_skip _ _ _ W).
    destruct (nat_of_ascii c =? 44)%nat.
    + destruct (read_elements fuel r') as [[vs' r2]|] eqn:R2; [| discriminate H].
      injection H as _ <-. apply closed_before_cons. exact (IHe _ _ _ R2).
    + destruct (nat_of_ascii c =? 93)%nat eqn:B; [| discriminate H].
      injection H as _ <-. apply closed_here. unfold closes. cbv zeta. now rewrite B.
  - intros s kvs rest H. cbn [read_members] in H.
    destruct (skip_ws s) as [|q s1] eqn:W; [discriminate H |].
    apply (closed_before_skip _ _ _ W).
    destruct (negb (nat_of_ascii q =? 34)%nat); [discriminate H |].
    destruct (read_string s1) as [[k r1]|] eqn:R1; [| discriminate H].
    apply (read_string_closed _ _ _ _ (le_n _)) in R1.
    destruct R1 as (pre1 & c1 & -> & _).
    destruct (skip_ws r1) as [|colon r2] eqn:W1; [discriminate H |].
    apply closed_before_cons, closed_before_app, closed_before_cons,
      (closed_before_skip _ _ _ W1).
    destruct (negb (nat_of_ascii colon =? 58)%nat); [discriminate H |].
    destruct (read_value fuel r2) as [[v r3]|] eqn:R3; [| discriminate H].
    apply IHv in R3. destruct R3 as (pre3 & c3 & -> & _).
    destruct (skip_ws r3) as [|c r4] eqn:W3; [discriminate H |].
    apply closed_before_cons, closed_before_app, closed_before_cons,
      (closed_before_skip _ _ _ W3).
    destruct (nat_of_ascii c =? 44)%nat.
    + destruct (read_members fuel r4) as [[kvs' r5]|] eqn:R5; [| discriminate H].
      injection H as _ <-. apply closed_before_cons. exact (IHm _ _ _ R5).
    + destruct (nat_of_ascii c =? 125)%nat eqn:B; [| discriminate H].
      injection H as _ <-. apply closed_here. unfold closes. cbv zeta.
      now rewrite B, !orb_true_r.
Qed.

Lemma last_char_app (a : string) (c : ascii) (s : string) :
  last_char (a ++ String c s) = last_char (String c s).
Proof.
  induction a as [|x a IH]; [reflexivity |].
  simpl append. cbn [last_char]. rewrite IH.
  destruct (a ++ String c s) eqn:E; [destruct a; discriminate E | reflexivity].
Qed.

Lemma endswith_split (s suffix : string) :
  py_endswith s suffix = true -> exists a, s = a ++ suffix.
Proof.
  induction s as [|c s IH]; cbn [py_endswith]; intros H.
  - apply orb_true_iff in H as [H | H]; [| discriminate H].
    apply String.eqb_eq in H. now exists "".
  - apply orb_true_iff in H as [H | H].
    + apply String.eqb_eq in H. now exists "".
    + destruct (IH H) as [a ->]. now exists (String c a).
Qed.

Lemma blank_last_char (c : ascii) (rest : string) :
  skip_ws rest = "" ->
  exists x, last_char (String c rest) = Some x /\ (x = c \/ is_json_ws x = true).
Proof.
  revert c. induction rest as [|d rest IH]; intros c W.
  - exists c. split; [reflexivity | now left].
  - cbn [skip_ws] in W. destruct (is_json_ws d) eqn:D; [| discriminate W].
    destruct (IH d W) as (x & L & O). exists x. split; [exact L |].
    right. destruct O as [-> | X]; assumption.
Qed.

(** A text the decoder accepts does not end with the opening of a fence. *)
Lemma accepted_payload_tail (p : string) (v : value) :
  json_loads_ref p = Some v -> py_endswith p "```json" = false.
Proof.
  unfold json_loads_ref. intros H.
  destruct (read_value _ p) as [[v' rest]|] eqn:R; [| discriminate H].
  destruct (skip_ws rest) eqn:W; [| discriminate H].
  apply (proj1 (read_json_closed _)) in R. destruct R as (pre & c & -> & C).
  destruct (py_endswith (pre ++ String c rest) "```json") eqn:E; [exfalso | reflexivity].
  apply endswith_split in E as [a E].
  assert (last_char (pre ++ String c rest) = Some "n"%char) as L
    by (rewrite E; apply (last_char_app a "`" "``json")).
  rewrite last_char_app in L.
  destruct (blank_last_char c rest W) as (x & Lx & [-> | X]);
    rewrite Lx in L; injection L as ->; discriminate.
Qed.

End DecoderFacts.

Import StringFacts ReplaceFacts FenceFacts.

(** ** The fence removal on a woven text *)

Module WeaveFacts.












Lemma weave_longer (rest : list (marker * string)) :
  rest <> [] -> (String.length (pieces rest) < String.length (weave rest))%nat.
Proof.
  assert (forall r, String.length (pieces r) <= String.length (weave r))%nat as Le.
  { induction r as [|[m t] more IH]; [apply Nat.le_refl |].
    cbn [weave pieces]. rewrite !length_append. lia. }
  destruct rest as [|[m t] more]; [congruence | intros _].
  cbn [weave pieces]. rewrite !length_append. pose proof (Le more).
  destruct m; cbn [marker_text];
    [change (String.length opening_fence) with 8%nat
    | change (String.length closing_fence) with 4%nat]; lia.
Qed.

End WeaveFacts.

(** ** The fence removal on a fenced payload *)

Lemma clean_fenced (p : string) :
  py_endswith p "```json" = false ->
  clean_json_string (fenced p) = clean_json_string p.
Proof.
  intros E. rewrite !clean_json_string_eq. unfold fenced.
  rewrite replace_from_hit by exact opening_fence_nonempty.
  change ("" ++ replace_from opening_fence "" 0 (p ++ closing_fence))
    with (replace_from opening_fence "" 0 (p ++ closing_fence)).
  rewrite replace_from_append; [| now apply opening_across_closing | lia].
  change (replace_from opening_fence "" 0 closing_fence) with closing_fence.
  pose proof (borderless_no_straddle closing_fence
                (replace_from opening_fence "" 0 p) "" closing_fence_borderless) as G.
  change (closing_fence ++ "") with closing_fence in G.
  rewrite replace_from_append; [| exact G | lia].
  change (replace_from closing_fence "" 0 closing_fence) with "".
  now rewrite append_nil_r.
Qed.

Lemma clean_unmarked (p : string) :
  py_contains opening_fence p = false -> py_contains closing_fence p = false ->
  clean_json_string p = py_strip p.
Proof.
  intros O C. rewrite clean_json_string_eq.
  rewrite (replace_from_absent _ _ _ O), (replace_from_absent _ _ _ C). reflexivity.
Qed.

Lemma read_completion_text {W : World} (schema : value) (text : string) :
  truthy schema = true ->
  read_completion schema (completion_body (text_part text))
  = match json_loads (clean_json_string text) with
    | Some v => Ret v
    | None => Raise JSONDecodeError
    end.
Proof. intros T. unfold read_completion. simpl. rewrite T. reflexivity. Qed.

(** ** Runs of the two helpers *)

Section Runs.
Context {W : World}.

(** The value handed back does not depend on the log, and exactly one
    request is appended to it. *)
Lemma call_gemini_api_run (prompt : string) (schema : value) (log : list outbound) :
  call_gemini_api prompt schema log
  = (completion_of prompt schema, (log ++ [gemini_call prompt schema])%list).
Proof.
  unfold completion_of, call_gemini_api, try_except, bind, requests_post, lift, ret.
  fold (gemini_call prompt schema).
  destruct (remote (gemini_call prompt schema)) as [|status body]; [reflexivity |].
  destruct (raise_for_status (status, body)) as [[]|e]; [| destruct e; reflexivity].
  destruct (response_json (status, body)) as [result|e]; [| destruct e; reflexivity].
  destruct (read_completion schema result) as [v|e]; [| destruct e]; reflexivity.
Qed.

Lemma search_youtube_videos_run (query : string) (log : list outbound) :
  search_youtube_videos query log
  = (search_of query, (log ++ [youtube_call query])%list).
Proof.
  unfold search_of, search_youtube_videos, try_except, bind, requests_get, lift, ret.
  fold (youtube_call query).
  destruct (remote (youtube_call query)) as [|status body]; [reflexivity |].
  destruct (raise_for_status (status, body)) as [[]|e]; [| destruct e; reflexivity].
  destruct (response_json (status, body)) as [result|e]; [| destruct e; reflexivity].
  destruct (pick_video result) as [v|e]; [| destruct e]; reflexivity.
Qed.

End Runs.

(** ** The handlers, one request at a time *)

Section Handlers.
Context {W : World}.

Ltac run_view :=
  unfold post, dispatch, view, extract_title_route, extract_topics_route,
    suggest_video_route, generate_notes_route, generate_flashcards_route,
    generate_questions_route, bind, lift, ret, jsonify, jsonify_status.

(** A request whose field is falsy is answered 400 before any call out. *)
Lemma post_rejected (h : handler) (data field : value) :
  py_get_default data (required_field h) (VStr "") = Ret field ->
  truthy field = false ->
  post h data = (JsonReply 400 (VDict [ ("error", VStr (error_message h)) ]), []).
Proof.
  intros G T. destruct h; simpl required_field in G; run_view;
    rewrite G, T; reflexivity.
Qed.

Lemma absent_field (h : handler) (kvs : list (string * value)) :
  dict_lookup (required_field h) kvs = None ->
  py_get_default (VDict kvs) (required_field h) (VStr "") = Ret (VStr "").
Proof. intros L. simpl. now rewrite L. Qed.

Lemma present_field (h : handler) (kvs : list (string * value)) (field : value) :
  dict_lookup (required_field h) kvs = Some field ->
  py_get_default (VDict kvs) (required_field h) (VStr "") = Ret field.
Proof. intros L. simpl. now rewrite L. Qed.

(** Validation: a JSON object without the field, or with the empty string
    in it, is answered 400 with an [error] member, and nothing is sent out. *)
Lemma missing_or_empty_field_rejected (h : handler) (kvs : list (string * value)) :
  dict_lookup (required_field h) kvs = None
  \/ dict_lookup (required_field h) kvs = Some (VStr "") ->
  post h (VDict kvs)
  = (JsonReply 400 (VDict [ ("error", VStr (error_message h)) ]), []).
Proof.
  intros [L | L]; apply post_rejected with (field := VStr "");
    auto using absent_field, present_field.
Qed.

Lemma post_extract_title (data field : value) :
  py_get_default data "syllabus_text" (VStr "") = Ret field -> truthy field = true ->
  post ExtractTitle data
  = (match completion_of (title_prompt field) VNone with
     | Ret title => JsonReply 200 (VDict [ ("title", title) ])
     | Raise _ => InternalServerError
     end, [ gemini_call (title_prompt field) VNone ]).
Proof.
  intros G T. run_view. rewrite G, T. cbn [negb].
  rewrite call_gemini_api_run. destruct (completion_of _ _); reflexivity.
Qed.

Lemma post_extract_topics (data field : value) :
  py_get_default data "syllabus_text" (VStr "") = Ret field -> truthy field = true ->
  post ExtractTopics data
  = (match completion_of (topics_prompt field) topics_schema with
     | Ret topics_raw =>
         match normalize_topics topics_raw with
         | Ret topics => JsonReply 200 (VDict [ ("topics", VList topics) ])
         | Raise _ => InternalServerError
         end
     | Raise _ => InternalServerError
     end, [ gemini_call (topics_prompt field) topics_schema ]).
Proof.
  intros G T. run_view. rewrite G, T. cbn [negb].
  rewrite call_gemini_api_run. destruct (completion_of _ _) as [raw|]; [| reflexivity].
  destruct (normalize_topics raw); reflexivity.
Qed.

Lemma post_generate_notes (data field : value) :
  py_get_default data "topic" (VStr "") = Ret field -> truthy field = true ->
  post GenerateNotes data
  = (match completion_of (notes_prompt field) VNone with
     | Ret notes =>
         JsonReply 200
           (VDict [ ("notes", if truthy notes then notes
                              else VStr "Could not generate notes for this topic.") ])
     | Raise _ => InternalServerError
     end, [ gemini_call (notes_prompt field) VNone ]).
Proof.
  intros G T. run_view. rewrite G, T. cbn [negb].
  rewrite call_gemini_api_run. destruct (completion_of _ _); reflexivity.
Qed.

Lemma post_generate_flashcards (data field : value) :
  py_get_default data "topic" (VStr "") = Ret field -> truthy field = true ->
  post GenerateFlashcards data
  = (match completion_of (flashcards_prompt field) flashcards_schema with
     | Ret flashcards =>
         JsonReply 200
           (VDict [ ("flashcards", if truthy flashcards then flashcards else VList []) ])
     | Raise _ => InternalServerError
     end, [ gemini_call (flashcards_prompt field) flashcards_schema ]).
Proof.
  intros G T. run_view. rewrite G, T. cbn [negb].
  rewrite call_gemini_api_run. destruct (completion_of _ _); reflexivity.
Qed.

Lemma post_generate_questions (data field : value) :
  py_get_default data "topic" (VStr "") = Ret field -> truthy field = true ->
  post GenerateQuestions data
  = (match completion_of (questions_prompt field) questions_schema with
     | Ret questions =>
         JsonReply 200
           (VDict [ ("questions", if truthy questions then questions else VList []) ])
     | Raise _ => InternalServerError
     end, [ gemini_call (questions_prompt field) questions_schema ]).
Proof.
  intros G T. run_view. rewrite G, T. cbn [negb].
  rewrite call_gemini_api_run. destruct (completion_of _ _); reflexivity.
Qed.

(** [suggest_video] when the search came back with a video. *)
Lemma post_suggest_video_found (data field video_info : value) :
  py_get_default data "topic" (VStr "") = Ret field -> truthy field = true ->
  search_of (search_query field) = Ret video_info -> truthy video_info = true ->
  post SuggestVideo data
  = (match py_item video_info "title", py_item video_info "url" with
     | Ret title, Ret url => JsonReply 200 (VDict [ ("title", title); ("url", url) ])
     | _, _ => InternalServerError
     end, [ youtube_call (search_query field) ]).
Proof.
  intros G T S V. run_view. rewrite G, T. cbn [negb].
  rewrite search_youtube_videos_run, S, V.
  destruct (py_item video_info "title"); [| reflexivity].
  destruct (py_item video_info "url"); reflexivity.
Qed.

(** [suggest_video] when the search came back empty-handed. *)
Lemma post_suggest_video_fallback (data field video_info : value) :
  py_get_default data "topic" (VStr "") = Ret field -> truthy field = true ->
  search_of (search_query field) = Ret video_info -> truthy video_info = false ->
  post SuggestVideo data
  = (match completion_of (video_prompt field) video_schema with
     | Ret generated =>
         if truthy generated then
           match py_get generated "title", py_get generated "url" with
           | Ret title, Ret url => JsonReply 200 (VDict [ ("title", title); ("url", url) ])
           | _, _ => InternalServerError
           end
         else JsonReply 200 failed_video
     | Raise _ => InternalServerError
     end,
     [ youtube_call (search_query field); gemini_call (video_prompt field) video_schema ]).
Proof.
  intros G T S V. run_view. rewrite G, T. cbn [negb].
  rewrite search_youtube_videos_run, S, V, call_gemini_api_run.
  destruct (completion_of _ _) as [generated|]; [| reflexivity].
  destruct (truthy generated); [| reflexivity].
  destruct (py_get generated "title"); [| reflexivity].
  destruct (py_get generated "url"); reflexivity.
Qed.

End Handlers.

(** ** What [call_gemini_api] makes of an answer *)

Section Completion.
Context {W : World}.

Lemma completion_unreachable (prompt : string) (schema : value) :
  remote (gemini_call prompt schema) = NoResponse ->
  completion_of prompt schema = Ret VNone.
Proof.
  intros R. unfold completion_of, call_gemini_api, try_except, bind, requests_post,
    lift, ret. fold (gemini_call prompt schema). now rewrite R.
Qed.

Lemma completion_error_status (prompt : string) (schema : value) (status : Z)
    (body : option value) :
  remote (gemini_call prompt schema) = Response status body ->
  (400 <= status < 600)%Z ->
  completion_of prompt schema = Ret VNone.
Proof.
  intros R S. unfold completion_of, call_gemini_api, try_except, bind, requests_post,
    lift, ret. fold (gemini_call prompt schema). rewrite R.
  unfold raise_for_status. cbn [fst].
  replace ((400 <=? status) && (status <? 600))%Z with true; [reflexivity |].
  symmetry. apply andb_true_iff. split; [apply Z.leb_le | apply Z.ltb_lt]; lia.
Qed.

Lemma completion_not_json (prompt : string) (schema : value) (status : Z) :
  remote (gemini_call prompt schema) = Response status None ->
  completion_of prompt schema = Ret VNone.
Proof.
  intros R. unfold completion_of, call_gemini_api, try_except, bind, requests_post,
    lift, ret. fold (gemini_call prompt schema). rewrite R.
  unfold raise_for_status. cbn [fst].
  destruct ((400 <=? status) && (status <? 600))%Z; reflexivity.
Qed.

Lemma completion_read (prompt : string) (schema : value) (status : Z) (result : value) :
  remote (gemini_call prompt schema) = Response status (Some result) ->
  ~ (400 <= status < 600)%Z ->
  completion_of prompt schema = caught (read_completion schema result).
Proof.
  intros R S. unfold completion_of, call_gemini_api, try_except, bind, requests_post,
    lift, ret. fold (gemini_call prompt schema). rewrite R.
  unfold raise_for_status. cbn [fst].
  replace ((400 <=? status) && (status <? 600))%Z with false.
  - cbn. destruct (read_completion schema result) as [v|e]; [| destruct e]; reflexivity.
  - symmetry. apply andb_false_iff.
    destruct (Z.leb_spec 400 status); [right; apply Z.ltb_ge; lia | now left].
Qed.

(** A response without usable [candidates] is the failure signal. *)
Lemma read_no_candidates (schema result candidates : value) :
  py_get result "candidates" = Ret candidates -> truthy candidates = false ->
  read_completion schema result = Ret VNone.
Proof.
  intros G T. unfold read_completion, has_parts. rewrite G. cbn [rbind]. now rewrite T.
Qed.

(** A first candidate without usable [content] is the failure signal. *)
Lemma read_no_content (schema result candidates candidate content : value) :
  py_get result "candidates" = Ret candidates -> truthy candidates = true ->
  first_candidate result = Ret candidate ->
  py_get candidate "content" = Ret content -> truthy content = false ->
  read_completion schema result = Ret VNone.
Proof.
  intros G T F C TC. unfold read_completion, has_parts.
  rewrite G. cbn [rbind]. rewrite T, F. cbn [rbind]. rewrite C. cbn [rbind].
  now rewrite TC.
Qed.

(** A content without usable [parts] is the failure signal. *)
Lemma read_no_parts (schema result candidates candidate content parts : value) :
  py_get result "candidates" = Ret candidates -> truthy candidates = true ->
  first_candidate result = Ret candidate ->
  py_get candidate "content" = Ret content -> truthy content = true ->
  py_item candidate "content" = Ret content ->
  py_get content "parts" = Ret parts -> truthy parts = false ->
  read_completion schema result = Ret VNone.
Proof.
  intros G T F C TC I P TP. unfold read_completion, has_parts.
  rewrite G. cbn [rbind]. rewrite T, F. cbn [rbind]. rewrite C. cbn [rbind].
  rewrite TC. cbn [rbind]. rewrite I. cbn [rbind]. rewrite P. cbn [rbind].
  now rewrite TP.
Qed.

(** A structured payload [json.loads] rejects is the failure signal. *)
Lemma completion_unparsable (prompt : string) (schema : value) (status : Z) (text : string) :
  remote (gemini_call prompt schema)
  = Response status (Some (completion_body (text_part text))) ->
  ~ (400 <= status < 600)%Z ->
  truthy schema = true ->
  json_loads (clean_json_string text) = None ->
  completion_of prompt schema = Ret VNone.
Proof.
  intros R S T J. rewrite (completion_read _ _ _ _ R S), read_completion_text by exact T.
  now rewrite J.
Qed.

(** A first part without [text] is not caught: the [KeyError] leaves
    [call_gemini_api]. *)
Lemma completion_missing_text (prompt : string) (schema : value) (status : Z)
    (part : list (string * value)) :
  remote (gemini_call prompt schema)
  = Response status (Some (completion_body (VDict part))) ->
  ~ (400 <= status < 600)%Z ->
  dict_lookup "text" part = None ->
  completion_of prompt schema = Raise KeyError.
Proof.
  intros R S T. rewrite (completion_read _ _ _ _ R S).
  unfold read_completion. simpl. now rewrite T.
Qed.

End Completion.

(** ** What [search_youtube_videos] makes of an answer *)

Section Search.
Context {W : World}.

Lemma rbind_ret_inv {A B : Type} (r : res A) (k : A -> res B) (b : B) :
  rbind r k = Ret b -> exists a, r = Ret a /\ k a = Ret b.
Proof. destruct r as [a|e]; simpl; [now exists a | discriminate]. Qed.

(** Every exception is caught: the search hands back a value. *)
Lemma search_of_total (query : string) : exists v, search_of query = Ret v.
Proof.
  unfold search_of, search_youtube_videos, try_except, bind, requests_get, lift, ret.
  destruct (remote _) as [|status body]; [now exists VNone |].
  destruct (raise_for_status (status, body)) as [[]|e]; [| destruct e; now exists VNone].
  destruct (response_json (status, body)) as [r|e]; [| destruct e; now exists VNone].
  destruct (pick_video r) as [v|e]; [now exists v | destruct e; now exists VNone].
Qed.

Lemma search_unreachable (query : string) :
  remote (youtube_call query) = NoResponse -> search_of query = Ret VNone.
Proof.
  intros R. unfold search_of, search_youtube_videos, try_except, bind, requests_get,
    lift, ret. fold (youtube_call query). now rewrite R.
Qed.

Lemma search_error_status (query : string) (status : Z) (body : option value) :
  remote (youtube_call query) = Response status body ->
  (400 <= status < 600)%Z ->
  search_of query = Ret VNone.
Proof.
  intros R S. unfold search_of, search_youtube_videos, try_except, bind, requests_get,
    lift, ret. fold (youtube_call query). rewrite R.
  unfold raise_for_status. cbn [fst].
  replace ((400 <=? status) && (status <? 600))%Z with true; [reflexivity |].
  symmetry. apply andb_true_iff. split; [apply Z.leb_le | apply Z.ltb_lt]; lia.
Qed.

Lemma search_read (query : string) (status : Z) (results : value) :
  remote (youtube_call query) = Response status (Some results) ->
  ~ (400 <= status < 600)%Z ->
  search_of query
  = Ret (match pick_video results with Ret v => v | Raise _ => VNone end).
Proof.
  intros R S. unfold search_of, search_youtube_videos, try_except, bind, requests_get,
    lift, ret. fold (youtube_call query). rewrite R.
  unfold raise_for_status. cbn [fst].
  replace ((400 <=? status) && (status <? 600))%Z with false.
  - cbn. destruct (pick_video results) as [v|e]; [| destruct e]; reflexivity.
  - symmetry. apply andb_false_iff.
    destruct (Z.leb_spec 400 status); [right; apply Z.ltb_ge; lia | now left].
Qed.

(** No [items], or an empty list of them: no video. *)
Lemma pick_video_nothing (results items : value) :
  py_get results "items" = Ret items -> truthy items = false ->
  pick_video results = Ret VNone.
Proof.
  intros G T. unfold pick_video. destruct (truthy results); [| reflexivity].
  rewrite G. cbn [rbind]. now rewrite T.
Qed.

(** One turn of the loop on a well-formed search result. *)
Lemma scan_items_step (item : value) (c : candidate) (rest : list value) :
  is_candidate item c ->
  scan_items (item :: rest)
  = if looks_like_lecture (py_lower (fst c)) then Ret (Some (suggestion c))
    else scan_items rest.
Proof.
  destruct c as [title video_id]. intros [T I].
  apply rbind_ret_inv in T as (snippet & T1 & T2).
  apply rbind_ret_inv in I as (id & I1 & I2).
  cbn [scan_items fst snd]. rewrite I1. cbn [rbind]. rewrite I2. cbn [rbind].
  rewrite T1. cbn [rbind]. rewrite T2. cbn [rbind as_str]. reflexivity.
Qed.

Lemma scan_items_first_lecture (items : list value) (cs before after : list candidate)
    (c : candidate) :
  Forall2 is_candidate items cs ->
  cs = (before ++ c :: after)%list ->
  lecture_title (fst c) ->
  (forall b, In b before -> ~ lecture_title (fst b)) ->
  scan_items items = Ret (Some (suggestion c)).
Proof.
  intros F. revert before. induction F as [|item c0 items cs Hc F IH]; intros before E L N.
  - destruct before; discriminate E.
  - rewrite (scan_items_step _ _ _ Hc). destruct before as [|b before].
    + injection E as -> _. apply looks_like_lecture_spec in L. now rewrite L.
    + injection E as -> E.
      destruct (looks_like_lecture (py_lower (fst b))) eqn:B.
      * apply looks_like_lecture_spec in B. exfalso. apply (N b); [now left | exact B].
      * apply (IH before E L). intros b' I. apply N. now right.
Qed.

Lemma scan_items_no_lecture (items : list value) (cs : list candidate) :
  Forall2 is_candidate items cs ->
  (forall b, In b cs -> ~ lecture_title (fst b)) ->
  scan_items items = Ret None.
Proof.
  intros F. induction F as [|item c items cs Hc F IH]; intros N; [reflexivity |].
  rewrite (scan_items_step _ _ _ Hc).
  destruct (looks_like_lecture (py_lower (fst c))) eqn:B.
  - apply looks_like_lecture_spec in B. exfalso. apply (N c); [now left | exact B].
  - apply IH. intros b I. apply N. now right.
Qed.

(** The body of the [try] on a non-empty list of well-formed results. *)
Lemma pick_video_candidates (results item : value) (items : list value)
    (c : candidate) (cs : list candidate) :
  py_get results "items" = Ret (VList (item :: items)) ->
  is_candidate item c ->
  pick_video results
  = match scan_items (item :: items) with
    | Ret (Some v) => Ret v
    | Ret None => Ret (suggestion c)
    | Raise e => Raise e
    end.
Proof.
  intros G Hc. unfold pick_video.
  destruct results as [| | | | | |kvs]; try discriminate G.
  simpl in G. destruct (dict_lookup "items" kvs) as [v|] eqn:L; [| discriminate G].
  injection G as ->.
  assert (truthy (VDict kvs) = true) as T by (destruct kvs; [discriminate L | reflexivity]).
  rewrite T. simpl py_get. simpl py_item. rewrite L. cbn [rbind truthy py_iter].
  destruct (scan_items (item :: items)) as [[v|]|e]; cbn [rbind]; try reflexivity.
  destruct c as [title video_id]. destruct Hc as [Ht Hi].
  apply rbind_ret_inv in Ht as (snippet & T1 & T2).
  apply rbind_ret_inv in Hi as (id & I1 & I2).
  cbn [py_index nth_error]. simpl. rewrite I1. cbn [rbind]. rewrite I2. cbn [rbind].
  rewrite T1. cbn [rbind]. rewrite T2. reflexivity.
Qed.

End Search.

(** ** The topic list *)

Section Topics.
Context {W : World}.

Lemma collect_topics_truthy (items topics : list value) :
  collect_topics items = Ret topics -> Forall (fun t => truthy t = true) topics.
Proof.
  revert topics. induction items as [|item items IH]; intros topics H.
  - injection H as <-. constructor.
  - cbn [collect_topics] in H.
    destruct (py_get item "topic") as [t|] eqn:G; [| discriminate H].
    cbn [rbind] in H. destruct (truthy t) eqn:T; [| now apply IH].
    cbn [rbind] in H. destruct (collect_topics items) as [more|]; [| discriminate H].
    injection H as <-. constructor; [exact T | now apply IH].
Qed.

Lemma normalize_topics_truthy (topics_raw : value) (topics : list value) :
  normalize_topics topics_raw = Ret topics -> Forall (fun t => truthy t = true) topics.
Proof.
  unfold normalize_topics. destruct (truthy topics_raw).
  - destruct (py_iter topics_raw) as [items|]; [| discriminate].
    cbn [rbind]. apply collect_topics_truthy.
  - intros H. injection H as <-. constructor.
Qed.

(** On objects the comprehension keeps, in order, the topics that count. *)
Lemma collect_topics_objects (items : list value) :
  Forall is_object items -> collect_topics items = Ret (usable_topics items).
Proof.
  induction 1 as [|item items [kvs ->] F IH]; [reflexivity |].
  cbn [collect_topics usable_topics usable_topic py_get py_get_default rbind].
  destruct (dict_lookup "topic" kvs) as [t|]; cbn [truthy].
  - destruct (truthy t); [| exact IH]. cbn [rbind]. now rewrite IH.
  - exact IH.
Qed.

Lemma normalize_topics_objects (items : list value) :
  Forall is_object items -> normalize_topics (VList items) = Ret (usable_topics items).
Proof.
  intros F. unfold normalize_topics. destruct items as [|item items]; [reflexivity |].
  cbn [truthy py_iter rbind]. now apply collect_topics_objects.
Qed.

Lemma normalize_topics_absent (topics_raw : value) :
  truthy topics_raw = false -> normalize_topics topics_raw = Ret [].
Proof. intros T. unfold normalize_topics. now rewrite T. Qed.

Lemma usable_topics_truthy (items : list value) :
  Forall (fun t => truthy t = true) (usable_topics items).
Proof.
  induction items as [|item items IH]; [constructor |].
  cbn [usable_topics]. destruct (usable_topic item) as [t|] eqn:U; [| exact IH].
  constructor; [| exact IH].
  destruct item as [| | | | | |kvs]; try discriminate U. cbn [usable_topic] in U.
  destruct (dict_lookup "topic" kvs) as [t'|]; [| discriminate U].
  destruct (truthy t') eqn:T; [| discriminate U]. now injection U as <-.
Qed.

Lemma usable_topics_strings (items : list value) :
  Forall string_topic items ->
  Forall (fun t => exists s, t = VStr s /\ s <> "") (usable_topics items).
Proof.
  induction 1 as [|item items S F IH]; [constructor |].
  pose proof (usable_topics_truthy (item :: items)) as T.
  cbn [usable_topics] in *. destruct (usable_topic item) as [t|] eqn:U; [| exact IH].
  constructor; [| exact IH].
  destruct (S t U) as [s ->]. exists s. split; [reflexivity |].
  apply Forall_inv in T. cbn [truthy] in T. intros ->. discriminate T.
Qed.

End Topics.

(** * The claims *)

(** ** Start-up *)

(** With both credentials set the module goes on to serve. *)
Lemma module_init_configured (getenv : string -> option string) (g y : string) :
  getenv "GOOGLE_API_KEY" = Some g -> g <> "" ->
  getenv "YOUTUBE_API_KEY" = Some y -> y <> "" ->
  module_init getenv = Configured g y.
Proof.
  intros G Ng Y Ny. unfold module_init. rewrite G, Y. cbn [unset].
  apply String.eqb_neq in Ng, Ny. now rewrite Ng, Ny.
Qed.

(** C8.  When either credential is absent from the environment, the module
    exits with code 1 instead of reaching [app.run]; what it prints starts
    with a line naming a variable that is not set and has a line telling
    where to get one. *)
Theorem startup_exits_without_credentials (getenv : string -> option string) :
  getenv "GOOGLE_API_KEY" = None \/ getenv "YOUTUBE_API_KEY" = None ->
  exists name printed,
    module_init getenv = Exit 1 printed
    /\ serves (module_init getenv) = false
    /\ (name = "GOOGLE_API_KEY" \/ name = "YOUTUBE_API_KEY")
    /\ unset (getenv name) = true
    /\ nth 0 printed "" = "CRITICAL: " ++ name ++ " environment variable not set."
    /\ exists line, In line printed /\ prefix "You can get one from " line = true.
Proof.
  intros H. unfold module_init.
  destruct (unset (getenv "GOOGLE_API_KEY")) eqn:G.
  - exists "GOOGLE_API_KEY". eexists. split; [reflexivity |]. split; [reflexivity |].
    split; [now left |]. split; [exact G |]. split; [reflexivity |].
    eexists. split; [right; right; left; reflexivity | reflexivity].
  - assert (unset (getenv "YOUTUBE_API_KEY") = true) as Y.
    { destruct H as [H | H]; rewrite H in *; [discriminate G | reflexivity]. }
    rewrite Y. exists "YOUTUBE_API_KEY". eexists. split; [reflexivity |].
    split; [reflexivity |].
    split; [now right |]. split; [exact Y |]. split; [reflexivity |].
    eexists. split; [right; right; left; reflexivity | reflexivity].
Qed.

Lemma startup_exits_without_credentials_witness :
  env_of [ ("GOOGLE_API_KEY", "k") ] "YOUTUBE_API_KEY" = None
  /\ exists name printed,
       module_init (env_of [ ("GOOGLE_API_KEY", "k") ]) = Exit 1 printed
       /\ serves (module_init (env_of [ ("GOOGLE_API_KEY", "k") ])) = false
       /\ (name = "GOOGLE_API_KEY" \/ name = "YOUTUBE_API_KEY")
       /\ unset (env_of [ ("GOOGLE_API_KEY", "k") ] name) = true
       /\ nth 0 printed "" = "CRITICAL: " ++ name ++ " environment variable not set."
       /\ exists line, In line printed /\ prefix "You can get one from " line = true.
Proof.
  split; [reflexivity |].
  apply (startup_exits_without_credentials (env_of [ ("GOOGLE_API_KEY", "k") ])).
  right. reflexivity.
Defined.

(** ** The completion helper *)

(** C4 (the code at the failing input).  When the completion service
    answers 200 with a first part that has no [text] member,
    [call_gemini_api] does not hand back the failure signal: the [KeyError]
    of [parts[0]["text"]] matches neither [except] clause and leaves the
    function, whatever the prompt and the schema. *)
Theorem call_gemini_api_leaks_key_error (prompt : string) (schema : value)
    (log : list outbound) :
  call_gemini_api (W := textless_world) prompt schema log
  = (Raise KeyError, (log ++ [ gemini_call (W := textless_world) prompt schema ])%list).
Proof.
  rewrite call_gemini_api_run.
  rewrite (completion_missing_text (W := textless_world) prompt schema 200 textless_part);
    [reflexivity | reflexivity | lia | reflexivity].
Qed.

(** C3 (the code at the failing input).  With the field present and
    non-empty, and the completion service answering without a [text]
    member, every handler ends in Flask's 500 page, not in a 200. *)
Theorem missing_text_surfaces_as_500 (h : handler) :
  fst (post (W := textless_world) h (request_for h "Graphs")) = InternalServerError
  /\ status_of (fst (post (W := textless_world) h (request_for h "Graphs"))) = 500%Z.
Proof. destruct h; vm_compute; split; reflexivity. Qed.

(** ** Graceful degradation *)

Lemma degraded_values_are_sentinels (h : handler) (kvs : list (string * value))
    (k : string) (v : value) :
  h <> ExtractTitle -> degraded_body h = VDict kvs -> In (k, v) kvs ->
  documented_sentinel v.
Proof.
  intros N E I. destruct h; try congruence; injection E as <-;
    repeat (destruct I as [I | I]; [injection I as <- <- |]); try contradiction;
    solve [ now left | right; eexists; split; [reflexivity | discriminate] ].
Qed.

(** C7 (as amended).  For every handler, a request with its field present
    and truthy, answered upstream by the failure signal of the completion
    call (and, for [suggest_video], by a search that found nothing), gets
    HTTP 200 with a JSON body: [{"title": null}] for [extract_title], and for
    the other handlers the documented sentinels (an empty array, the
    placeholder string, the failed-video title with the ["#"] URL). *)
Theorem handlers_degrade_on_failure_signal {W : World} (h : handler)
    (data field : value) :
  py_get_default data (required_field h) (VStr "") = Ret field ->
  truthy field = true ->
  completion_of (completion_prompt h field) (completion_schema h) = Ret VNone ->
  (h = SuggestVideo -> search_of (search_query field) = Ret VNone) ->
  fst (post h data) = JsonReply 200 (degraded_body h)
  /\ (h <> ExtractTitle ->
      forall kvs k v, degraded_body h = VDict kvs -> In (k, v) kvs ->
                      documented_sentinel v).
Proof.
  intros G T C S. split; [| intros N kvs k v; now apply degraded_values_are_sentinels].
  destruct h; cbn [required_field completion_prompt completion_schema] in *.
  - rewrite (post_extract_title _ _ G T), C. reflexivity.
  - rewrite (post_extract_topics _ _ G T), C. reflexivity.
  - rewrite (post_suggest_video_fallback _ _ VNone G T (S eq_refl) eq_refl), C.
    reflexivity.
  - rewrite (post_generate_notes _ _ G T), C. reflexivity.
  - rewrite (post_generate_flashcards _ _ G T), C. reflexivity.
  - rewrite (post_generate_questions _ _ G T), C. reflexivity.
Qed.

Lemma handlers_degrade_on_failure_signal_witness :
  fst (post (W := down_world) SuggestVideo (request_for SuggestVideo "Graphs"))
  = JsonReply 200 failed_video.
Proof.
  apply (proj1 (handlers_degrade_on_failure_signal (W := down_world) SuggestVideo
                  (request_for SuggestVideo "Graphs") (VStr "Graphs")
                  eq_refl eq_refl eq_refl (fun _ => eq_refl))).
Defined.

(** C7 as stated fails for [extract_title]: with both services unreachable
    its failure value is [null], none of the listed sentinels. *)
Lemma title_failure_value_is_null :
  fst (post (W := down_world) ExtractTitle (request_for ExtractTitle "Linear Algebra"))
  = JsonReply 200 (VDict [ ("title", VNone) ])
  /\ ~ documented_sentinel VNone.
Proof.
  split; [reflexivity |].
  intros [H | (s & H & _)]; discriminate H.
Qed.

(** ** Array-shaped results *)

(** C1 (as amended).  For the three handlers with an array-shaped result
    and a request they accept: when the completion result is absent (or
    otherwise falsy) the answer is 200 with an empty array; [extract_topics]
    keeps, in order, the [topic] of each entry that has a truthy one;
    [generate_flashcards] and [generate_questions] pass a non-empty result
    on as it is, entry by entry unchecked. *)
Theorem array_results_normalized {W : World} (h : handler) (data field raw : value) :
  In h [ ExtractTopics; GenerateFlashcards; GenerateQuestions ] ->
  py_get_default data (required_field h) (VStr "") = Ret field ->
  truthy field = true ->
  completion_of (completion_prompt h field) (completion_schema h) = Ret raw ->
  (truthy raw = false -> fst (post h data) = JsonReply 200 (degraded_body h))
  /\ (h = ExtractTopics -> forall items, raw = VList items -> Forall is_object items ->
        fst (post h data) = JsonReply 200 (VDict [ ("topics", VList (usable_topics items)) ]))
  /\ (h = GenerateFlashcards -> truthy raw = true ->
        fst (post h data) = JsonReply 200 (VDict [ ("flashcards", raw) ]))
  /\ (h = GenerateQuestions -> truthy raw = true ->
        fst (post h data) = JsonReply 200 (VDict [ ("questions", raw) ])).
Proof.
  intros I G T C.
  destruct I as [<- | [<- | [<- | []]]];
    cbn [required_field completion_prompt completion_schema] in *.
  - rewrite (post_extract_topics _ _ G T), C. cbn [fst]. repeat split; try discriminate.
    + intros F. now rewrite (normalize_topics_absent _ F).
    + intros _ items -> O. now rewrite (normalize_topics_objects _ O).
  - rewrite (post_generate_flashcards _ _ G T), C. cbn [fst]. repeat split; try discriminate.
    + intros F. now rewrite F.
    + intros _ F. now rewrite F.
  - rewrite (post_generate_questions _ _ G T), C. cbn [fst]. repeat split; try discriminate.
    + intros F. now rewrite F.
    + intros _ F. now rewrite F.
Qed.

Lemma array_results_normalized_witness :
  fst (post (W := example_world (completes graphs_trees_text) NoResponse)
         ExtractTopics (request_for ExtractTopics "Data structures"))
  = JsonReply 200 (VDict [ ("topics", VList [ VStr "Graphs"; VStr "Trees" ]) ]).
Proof.
  refine (proj1 (proj2 (array_results_normalized
            (W := example_world (completes graphs_trees_text) NoResponse)
            ExtractTopics (request_for ExtractTopics "Data structures")
            (VStr "Data structures")
            (VList [ VDict [ ("topic", VStr "Graphs") ]; VDict [];
                     VDict [ ("topic", VStr "Trees") ] ])
            _ eq_refl eq_refl _)) eq_refl _ eq_refl _).
  - left. reflexivity.
  - vm_compute. reflexivity.
  - repeat constructor; eexists; reflexivity.
Defined.

(** C1 as stated fails for [generate_flashcards]: a flashcard without its
    [back] reaches the client. *)
Lemma flashcard_without_back_is_returned :
  fst (post (W := example_world (completes one_sided_flashcard_text) NoResponse)
         GenerateFlashcards (request_for GenerateFlashcards "Python"))
  = JsonReply 200 (VDict [ ("flashcards", VList [ VDict [ ("front", VStr "Q") ] ]) ])
  /\ dict_lookup "back" [ ("front", VStr "Q") ] = None.
Proof. split; vm_compute; reflexivity. Qed.

(** C10 (as amended).  Whatever [extract_topics] returns as its topics
    array holds only truthy values, so never an empty string; on an upstream
    array of objects it is the list of the topics that count, an entry with
    an empty (or otherwise falsy) [topic] being dropped like one without the
    field; and when the upstream topics are strings, as the schema types
    them, every element is a non-empty string. *)
Theorem returned_topics_are_truthy {W : World} (data : value) :
  (forall status topics,
      fst (post ExtractTopics data)
      = JsonReply status (VDict [ ("topics", VList topics) ]) ->
      Forall (fun t => truthy t = true /\ t <> VStr "") topics)
  /\ (forall field items,
        py_get_default data "syllabus_text" (VStr "") = Ret field ->
        truthy field = true ->
        completion_of (topics_prompt field) topics_schema = Ret (VList items) ->
        Forall is_object items ->
        fst (post ExtractTopics data)
        = JsonReply 200 (VDict [ ("topics", VList (usable_topics items)) ])
        /\ (Forall string_topic items ->
            Forall (fun t => exists s, t = VStr s /\ s <> "") (usable_topics items))).
Proof.
  split.
  - intros status topics H.
    assert (Forall (fun t => truthy t = true) topics) as F.
    { destruct (py_get_default data "syllabus_text" (VStr "")) as [field|e] eqn:G.
      - destruct (truthy field) eqn:T.
        + rewrite (post_extract_topics _ _ G T) in H. cbn [fst] in H.
          destruct (completion_of _ _) as [raw|]; [| discriminate H].
          destruct (normalize_topics raw) as [ts|] eqn:N; [| discriminate H].
          injection H as _ <-. exact (normalize_topics_truthy _ _ N).
        + rewrite (post_rejected ExtractTopics _ _ G T) in H. discriminate H.
      - unfold post, dispatch, view, extract_topics_route, bind, lift in H.
        rewrite G in H. discriminate H. }
    eapply Forall_impl; [| exact F]. intros t T. split; [exact T |].
    intros ->. discriminate T.
  - intros field items G T C O. split.
    + rewrite (post_extract_topics _ _ G T), C. cbn [fst].
      now rewrite (normalize_topics_objects _ O).
    + apply usable_topics_strings.
Qed.

Lemma returned_topics_are_truthy_witness :
  fst (post (W := example_world (completes blank_topics_text) NoResponse)
         ExtractTopics (request_for ExtractTopics "Data structures"))
  = JsonReply 200 (VDict [ ("topics", VList [ VStr "Graphs" ]) ])
  /\ Forall (fun t => exists s, t = VStr s /\ s <> "") [ VStr "Graphs" ].
Proof.
  pose (items := [ VDict [ ("topic", VStr "Graphs") ]; VDict [ ("topic", VStr "") ];
                   VDict [ ("topic", VNone) ]; VDict [] ]).
  assert (Forall is_object items) as O
    by (repeat constructor; eexists; reflexivity).
  assert (Forall string_topic items) as S.
  { repeat constructor; intros t U; vm_compute in U; try discriminate U.
    injection U as <-. eexists. reflexivity. }
  destruct (proj2 (returned_topics_are_truthy
              (W := example_world (completes blank_topics_text) NoResponse)
              (request_for ExtractTopics "Data structures"))
              (VStr "Data structures") items eq_refl eq_refl eq_refl O) as [R N].
  split; [exact R | exact (N S)].
Defined.

(** C10 as stated fails when the completion service answers with a topic
    that is not a string: it is passed on as it is. *)
Lemma numeric_topic_is_returned :
  fst (post (W := example_world (completes numeric_topic_text) NoResponse)
         ExtractTopics (request_for ExtractTopics "Data structures"))
  = JsonReply 200 (VDict [ ("topics", VList [ VInt 5 ]) ])
  /\ ~ (exists s, VInt 5 = VStr s /\ s <> "").
Proof.
  split; [vm_compute; reflexivity |].
  intros (s & H & _). discriminate H.
Qed.

(** ** The video suggestion *)

(** The fallback as the handler runs it.  When the search hands back
    nothing, [suggest_video] sends exactly one completion request, after the
    search request; a non-empty object handed back by that call is answered
    200 with its [title] and [url], and the failure signal is answered 200
    with the failed-video sentinel. *)
Lemma video_fallback_runs_once {W : World} (data field : value) :
  py_get_default data "topic" (VStr "") = Ret field ->
  truthy field = true ->
  search_of (search_query field) = Ret VNone ->
  snd (post SuggestVideo data)
  = [ youtube_call (search_query field); gemini_call (video_prompt field) video_schema ]
  /\ List.length (completion_calls (snd (post SuggestVideo data))) = 1%nat
  /\ (forall kvs,
        completion_of (video_prompt field) video_schema = Ret (VDict kvs) -> kvs <> [] ->
        fst (post SuggestVideo data)
        = JsonReply 200
            (VDict [ ("title", match dict_lookup "title" kvs with Some t => t | None => VNone end);
                     ("url", match dict_lookup "url" kvs with Some u => u | None => VNone end) ]))
  /\ (completion_of (video_prompt field) video_schema = Ret VNone ->
      fst (post SuggestVideo data) = JsonReply 200 failed_video).
Proof.
  intros G T S.
  rewrite (post_suggest_video_fallback _ _ VNone G T S eq_refl). cbn [fst snd].
  repeat split.
  - intros kvs C N. rewrite C. destruct kvs; [congruence | reflexivity].
  - intros C. now rewrite C.
Qed.

(** The two ways the search hands back nothing that the claim names. *)
Lemma search_finds_nothing {W : World} (query : string) :
  (remote (youtube_call query) = NoResponse -> search_of query = Ret VNone)
  /\ (forall status results,
        remote (youtube_call query) = Response status (Some results) ->
        ~ (400 <= status < 600)%Z ->
        py_get results "items" = Ret (VList []) ->
        search_of query = Ret VNone).
Proof.
  split; [apply search_unreachable |].
  intros status results R S G.
  now rewrite (search_read _ _ _ R S), (pick_video_nothing _ _ G eq_refl).
Qed.

Lemma video_fallback_example :
  List.length (completion_calls (snd (post
    (W := example_world (completes generated_video_text) (finds []))
    SuggestVideo (request_for SuggestVideo "Graphs")))) = 1%nat
  /\ fst (post (W := example_world (completes generated_video_text) (finds []))
            SuggestVideo (request_for SuggestVideo "Graphs"))
     = JsonReply 200
         (VDict [ ("title", VStr "Graph Theory Basics");
                  ("url", VStr "https://www.youtube.com/watch?v=abcdefghijk") ]).
Proof.
  destruct (video_fallback_runs_once
              (W := example_world (completes generated_video_text) (finds []))
              (request_for SuggestVideo "Graphs") (VStr "Graphs")
              eq_refl eq_refl eq_refl) as (_ & Once & Generated & _).
  split; [exact Once |].
  apply (Generated [ ("title", VStr "Graph Theory Basics");
                     ("url", VStr "https://www.youtube.com/watch?v=abcdefghijk") ]).
  - vm_compute. reflexivity.
  - discriminate.
Qed.

(** C5 (the code at the failing input).  The search finds nothing and the
    completion service answers the fallback request without a [text]
    member: [suggest_video] has sent its one completion request, and the
    client gets Flask's 500 page, neither a generated video nor the
    failed-video sentinel. *)
Theorem video_fallback_surfaces_key_error :
  search_of (W := textless_world) (search_query (W := textless_world) (VStr "Graphs"))
  = Ret VNone
  /\ fst (post (W := textless_world) SuggestVideo (request_for SuggestVideo "Graphs"))
     = InternalServerError
  /\ List.length (completion_calls
       (snd (post (W := textless_world) SuggestVideo (request_for SuggestVideo "Graphs"))))
     = 1%nat.
Proof. repeat split; vm_compute; reflexivity. Qed.

(** C2.  On a search answer with a non-empty list of well-formed results,
    [search_youtube_videos] hands back the first candidate whose title
    contains, up to case, "lecture", "tutorial" or "course"; when no title
    does, the first candidate; and for the titles "Intro to X",
    "X Lecture Series", "X Explained" it hands back "X Lecture Series". *)
Theorem video_selection_heuristic :
  (forall (W : World) (query : string) (status : Z) (results item : value)
          (items : list value) (c : candidate) (cs : list candidate),
      remote (youtube_call query) = Response status (Some results) ->
      ~ (400 <= status < 600)%Z ->
      py_get results "items" = Ret (VList (item :: items)) ->
      Forall2 is_candidate (item :: items) (c :: cs) ->
      (forall before hit after,
          c :: cs = (before ++ hit :: after)%list ->
          lecture_title (fst hit) ->
          (forall b, In b before -> ~ lecture_title (fst b)) ->
          search_of query = Ret (suggestion hit))
      /\ ((forall b, In b (c :: cs) -> ~ lecture_title (fst b)) ->
          search_of query = Ret (suggestion c)))
  /\ (forall query,
        search_of (W := lecture_series_world) query
        = Ret (suggestion ("X Lecture Series", "v2"))).
Proof.
  split.
  - intros W query status results item items c cs R S G F.
    assert (is_candidate item c) as Hc by (inversion F; assumption).
    rewrite (search_read _ _ _ R S), (pick_video_candidates _ _ _ c cs G Hc).
    split.
    + intros before hit after E L N.
      now rewrite (scan_items_first_lecture _ _ _ _ _ F E L N).
    + intros N. now rewrite (scan_items_no_lecture _ _ F N).
  - intros query. vm_compute. reflexivity.
Qed.

Lemma video_selection_heuristic_witness :
  lecture_title "X Lecture Series"
  /\ ~ lecture_title "Intro to X"
  /\ search_of (W := lecture_series_world) "X academic lecture full course tutorial explanation"
     = Ret (suggestion ("X Lecture Series", "v2")).
Proof.
  assert (lecture_title "X Lecture Series") as L
    by (apply looks_like_lecture_spec; reflexivity).
  assert (~ lecture_title "Intro to X") as N
    by (intros H; apply looks_like_lecture_spec in H; discriminate H).
  split; [exact L |]. split; [exact N |].
  refine (proj1 (proj1 video_selection_heuristic lecture_series_world
            "X academic lecture full course tutorial explanation" 200%Z
            (search_body three_videos)
            (search_item "Intro to X" "v1")
            [ search_item "X Lecture Series" "v2"; search_item "X Explained" "v3" ]
            ("Intro to X", "v1") [ ("X Lecture Series", "v2"); ("X Explained", "v3") ]
            eq_refl _ eq_refl _)
          [ ("Intro to X", "v1") ] ("X Lecture Series", "v2") [ ("X Explained", "v3") ]
          eq_refl L _).
  - lia.
  - repeat constructor.
  - intros b [<- | []]. exact N.
Defined.

(** ** Fenced and unfenced payloads *)

(** C6.  For every structured payload [p], a text [json.loads] reads, the
    fence removal reduces the fenced text and the unfenced text to the same
    string: [json.loads] is handed the same text and [call_gemini_api]
    reads the same value from a response carrying either; when neither
    marker occurs in [p], that string is [p] stripped of surrounding white
    space.  The first hypothesis is a fact about [json.loads]: a text it
    reads ends, white space apart, with a bracket, a brace, a quote, a
    digit or the last letter of a literal, never with the opening of a
    fence. *)
Theorem fenced_payload_roundtrip {W : World} (p : string) (v : value) :
  (forall t u, json_loads t = Some u -> py_endswith t "```json" = false) ->
  json_loads p = Some v ->
  clean_json_string (fenced p) = clean_json_string p
  /\ json_loads (clean_json_string (fenced p)) = json_loads (clean_json_string p)
  /\ (forall schema, truthy schema = true ->
        read_completion schema (completion_body (text_part (fenced p)))
        = read_completion schema (completion_body (text_part p)))
  /\ (py_contains opening_fence p = false -> py_contains closing_fence p = false ->
        clean_json_string (fenced p) = py_strip p).
Proof.
  intros J A. pose proof (clean_fenced p (J p v A)) as C. repeat split.
  - exact C.
  - now rewrite C.
  - intros schema T. now rewrite !read_completion_text, C by exact T.
  - intros O Cl. rewrite C. now apply clean_unmarked.
Qed.

(** On every payload the reference decoder accepts the two texts are
    cleaned to the same string. *)
Lemma accepted_payload_roundtrip (p : string) (v : value) :
  json_loads_ref p = Some v ->
  clean_json_string (fenced p) = clean_json_string p.
Proof. intros A. apply clean_fenced. exact (DecoderFacts.accepted_payload_tail p v A). Qed.

Lemma fenced_payload_roundtrip_witness :
  json_loads_ref graphs_trees_text
  = Some (VList [ VDict [ ("topic", VStr "Graphs") ]; VDict [];
                  VDict [ ("topic", VStr "Trees") ] ])
  /\ json_loads_ref (clean_json_string (fenced graphs_trees_text))
     = json_loads_ref (clean_json_string graphs_trees_text).
Proof.
  split; [reflexivity |].
  exact (proj1 (proj2 (fenced_payload_roundtrip
                         (W := down_world) graphs_trees_text _
                         DecoderFacts.accepted_payload_tail eq_refl))).
Defined.




(** * Further properties of the code *)

(** ** Request validation *)

(** The status of an answer to a request whose field is truthy is never 400,
    and a request went out. *)
Lemma accepted_request_goes_out {W : World} (h : handler) (data field : value) :
  py_get_default data (required_field h) (VStr "") = Ret field ->
  truthy field = true ->
  status_of (fst (post h data)) <> 400%Z /\ snd (post h data) <> [].
Proof.
  intros G T. destruct h; cbn [required_field] in G.
  - rewrite (post_extract_title _ _ G T). cbn [fst snd].
    split; [destruct (completion_of _ _) | ]; discriminate.
  - rewrite (post_extract_topics _ _ G T). cbn [fst snd].
    split; [destruct (completion_of _ _) as [raw|]; [destruct (normalize_topics raw) |] | ];
      discriminate.
  - destruct (search_of_total (search_query field)) as [v S].
    destruct (truthy v) eqn:V.
    + rewrite (post_suggest_video_found _ _ _ G T S V). cbn [fst snd].
      split; [| discriminate].
      destruct (py_item v "title"); [destruct (py_item v "url") |]; discriminate.
    + rewrite (post_suggest_video_fallback _ _ _ G T S V). cbn [fst snd].
      split; [| discriminate].
      destruct (completion_of _ _) as [g|]; [| discriminate].
      destruct (truthy g); [| discriminate].
      destruct (py_get g "title"); [destruct (py_get g "url") |]; discriminate.
  - rewrite (post_generate_notes _ _ G T). cbn [fst snd].
    split; [destruct (completion_of _ _) | ]; discriminate.
  - rewrite (post_generate_flashcards _ _ G T). cbn [fst snd].
    split; [destruct (completion_of _ _) | ]; discriminate.
  - rewrite (post_generate_questions _ _ G T). cbn [fst snd].
    split; [destruct (completion_of _ _) | ]; discriminate.
Qed.

(** X1.  For a request whose body is a JSON object, every handler answers
    400 exactly when its field is missing or holds a falsy value (the empty
    string, [null], [0], [false], an empty array or object); the 400 answer
    carries the handler's error message and nothing has been sent out,
    while any other answer comes after at least one outbound request. *)
Theorem validation_decides_400 {W : World} (h : handler) (kvs : list (string * value)) :
  let field := match dict_lookup (required_field h) kvs with
               | Some v => v
               | None => VStr ""
               end in
  (status_of (fst (post h (VDict kvs))) = 400%Z <-> truthy field = false)
  /\ (truthy field = false ->
      post h (VDict kvs)
      = (JsonReply 400 (VDict [ ("error", VStr (error_message h)) ]), []))
  /\ (truthy field = true -> snd (post h (VDict kvs)) <> []).
Proof.
  intros field.
  assert (py_get_default (VDict kvs) (required_field h) (VStr "") = Ret field) as G
    by reflexivity.
  split; [| split].
  - split.
    + intros S. destruct (truthy field) eqn:T; [| reflexivity].
      destruct (accepted_request_goes_out h _ _ G T) as [N _]. contradiction.
    + intros T. now rewrite (post_rejected h _ _ G T).
  - intros T. exact (post_rejected h _ _ G T).
  - intros T. exact (proj2 (accepted_request_goes_out h _ _ G T)).
Qed.

(** X2.  A request body that is not a JSON object (an array, a string, a
    number, [true], [false] or [null]) makes every handler raise on
    [data.get]: the client gets the 500 page and nothing is sent out. *)
Theorem non_object_body_is_500 {W : World} (h : handler) (data : value) :
  (forall kvs, data <> VDict kvs) ->
  post h data = (InternalServerError, []).
Proof.
  intros N. destruct data; try (destruct h; reflexivity).
  exfalso. now apply (N kvs).
Qed.

Lemma non_object_body_is_500_witness :
  (forall kvs, VList [ VStr "Graphs" ] <> VDict kvs)
  /\ post (W := down_world) GenerateNotes (VList [ VStr "Graphs" ])
     = (InternalServerError, []).
Proof.
  assert (forall kvs, VList [ VStr "Graphs" ] <> VDict kvs) as N by discriminate.
  split; [exact N |].
  exact (non_object_body_is_500 (W := down_world) GenerateNotes (VList [ VStr "Graphs" ]) N).
Defined.

(** ** The answer of the completion service, by its shape *)

Section CompletionShapes.
Context {W : World}.

Lemma lacks_parts_read (schema result : value) :
  lacks_parts result -> read_completion schema result = Ret VNone.
Proof.
  intros [kvs candidates G T | kvs candidate others content L G T
          | kvs candidate content others parts L C G T].
  - exact (read_no_candidates schema _ _ G T).
  - apply (read_no_content schema _ (VList (VDict candidate :: others)) (VDict candidate)
             content); try assumption; try reflexivity.
    + simpl. now rewrite L.
    + unfold first_candidate. simpl. now rewrite L.
  - destruct content as [|member content].
    + apply (read_no_content schema _ (VList (VDict candidate :: others)) (VDict candidate)
               (VDict [])); try reflexivity.
      * simpl. now rewrite L.
      * unfold first_candidate. simpl. now rewrite L.
      * simpl. now rewrite C.
    + apply (read_no_parts schema _ (VList (VDict candidate :: others)) (VDict candidate)
               (VDict (member :: content)) parts); try assumption; try reflexivity.
      * simpl. now rewrite L.
      * unfold first_candidate. simpl. now rewrite L.
      * simpl. now rewrite C.
      * simpl. now rewrite C.
Qed.

(** When the text is there, the guard holds and the text is what is read. *)
Lemma first_text_read (schema result : value) (text : string) :
  first_text result = Ret (VStr text) ->
  read_completion schema result
  = if truthy schema then
      match json_loads (clean_json_string text) with
      | Some v => Ret v
      | None => Raise JSONDecodeError
      end
    else Ret (VStr (py_strip text)).
Proof.
  unfold first_text, read_completion, has_parts, first_candidate. intros F.
  destruct result as [| | | | | |kvs]; try discriminate F.
  cbn [py_item py_get py_get_default rbind] in *.
  destruct (dict_lookup "candidates" kvs) as [candidates|]; [| discriminate F].
  cbn [rbind] in *.
  destruct candidates as [| | | |s|[|candidate others]|]; try discriminate F.
  { cbn [py_index] in F. destruct (String.get _ _); discriminate F. }
  cbn [py_index Z.ltb Z.compare Z.to_nat nth_error rbind truthy] in *.
  destruct candidate as [| | | | | |candidate]; try discriminate F.
  cbn [py_item py_get py_get_default rbind] in *.
  destruct (dict_lookup "content" candidate) as [content|]; [| discriminate F].
  cbn [rbind] in *.
  destruct content as [| | | | | |content]; try discriminate F.
  cbn [py_item py_get py_get_default rbind] in *.
  destruct (dict_lookup "parts" content) as [parts|] eqn:P; [| discriminate F].
  assert (truthy (VDict content) = true) as -> by (destruct content; [discriminate P | reflexivity]).
  cbn [rbind] in *.
  destruct parts as [| | | |s|[|part parts]|]; try discriminate F.
  { cbn [py_index] in F. destruct (String.get _ _); discriminate F. }
  cbn [py_index Z.ltb Z.compare Z.to_nat nth_error rbind truthy] in *.
  rewrite F. cbn [rbind as_str]. destruct (truthy schema); reflexivity.
Qed.

(** Any other shape raises, in a class that is not caught. *)
Lemma read_completion_cases (schema result : value) :
  lacks_parts result
  \/ (exists text, first_text result = Ret (VStr text))
  \/ (exists e, read_completion schema result = Raise e /\ uncaught e).
Proof.
  assert (forall e, e = KeyError \/ e = IndexError \/ e = TypeError \/ e = AttributeError ->
                    uncaught e) as U
    by (intros e [-> | [-> | [-> | ->]]]; split; discriminate).
  destruct result as [| | | | | |kvs];
    try (right; right; exists AttributeError; split; [reflexivity | apply U; auto]).
  destruct (dict_lookup "candidates" kvs) as [candidates|] eqn:L.
  2:{ left. apply (lacks_candidates kvs VNone); [simpl; now rewrite L | reflexivity]. }
  destruct (truthy candidates) eqn:T.
  2:{ left. apply (lacks_candidates kvs candidates); [simpl; now rewrite L | exact T]. }
  unfold read_completion, has_parts, first_candidate, first_text, first_candidate.
  cbn [py_item py_get py_get_default rbind]. rewrite L. cbn [rbind]. rewrite T.
  destruct candidates as [|b|n|x|s|[|candidate others]|ckvs]; try discriminate T.
  - right; right. exists TypeError. split; [reflexivity | apply U; auto].
  - right; right. exists TypeError. split; [reflexivity | apply U; auto].
  - right; right. exists TypeError. split; [reflexivity | apply U; auto].
  - right; right. destruct s as [|c s]; [discriminate T |].
    exists AttributeError. split; [reflexivity | apply U; auto].
  - cbn [py_index Z.ltb Z.compare Z.to_nat nth_error rbind].
    destruct candidate as [| | | | | |candidate];
      try (right; right; exists AttributeError; split; [reflexivity | apply U; auto]).
    cbn [py_item py_get py_get_default rbind].
    destruct (dict_lookup "content" candidate) as [content|] eqn:C.
    2:{ left. apply (lacks_content kvs candidate others VNone);
          [exact L | simpl; now rewrite C | reflexivity]. }
    destruct (truthy content) eqn:TC.
    2:{ left. apply (lacks_content kvs candidate others content);
          [exact L | simpl; now rewrite C | exact TC]. }
    cbn [rbind].
    destruct content as [| | | | | |content];
      try (right; right; exists AttributeError; split; [reflexivity | apply U; auto]).
    cbn [py_item py_get py_get_default rbind].
    destruct (dict_lookup "parts" content) as [parts|] eqn:P.
    2:{ left. apply (lacks_part_list kvs candidate content others VNone);
          [exact L | exact C | simpl; now rewrite P | reflexivity]. }
    destruct (truthy parts) eqn:TP.
    2:{ left. apply (lacks_part_list kvs candidate content others parts);
          [exact L | exact C | simpl; now rewrite P | exact TP]. }
    cbn [rbind].
    destruct parts as [|b|n|x|s|[|part parts]|pkvs]; try discriminate TP.
    + right; right. exists TypeError. split; [reflexivity | apply U; auto].
    + right; right. exists TypeError. split; [reflexivity | apply U; auto].
    + right; right. exists TypeError. split; [reflexivity | apply U; auto].
    + right; right. destruct s as [|c s]; [discriminate TP |].
      exists TypeError. split; [reflexivity | apply U; auto].
    + cbn [py_index Z.ltb Z.compare Z.to_nat nth_error rbind].
      destruct part as [| | | | | |part];
        try (right; right; exists TypeError; split; [reflexivity | apply U; auto]).
      cbn [py_item]. destruct (dict_lookup "text" part) as [text|].
      2:{ right; right. exists KeyError. split; [reflexivity | apply U; auto]. }
      cbn [rbind].
      destruct text as [| | | |text| |];
        try (right; right; exists AttributeError; split;
             [destruct (truthy schema); reflexivity | apply U; auto]).
      right; left. now exists text.
    + right; right. exists KeyError. split; [reflexivity | apply U; auto].
  - right; right. exists KeyError. split; [reflexivity | apply U; auto].
Qed.

(** What [call_gemini_api] does is fixed by the answer to its one request. *)
Lemma completion_of_cases (prompt : string) (schema : value) :
  (completion_of prompt schema = Ret VNone
   /\ (remote (gemini_call prompt schema) = NoResponse
       \/ (exists status body, remote (gemini_call prompt schema) = Response status body
                               /\ (400 <= status < 600)%Z)
       \/ (exists status, remote (gemini_call prompt schema) = Response status None)))
  \/ (exists status result,
        remote (gemini_call prompt schema) = Response status (Some result)
        /\ ~ (400 <= status < 600)%Z
        /\ completion_of prompt schema = caught (read_completion schema result)).
Proof.
  destruct (remote (gemini_call prompt schema)) as [|status body] eqn:R.
  - left. split; [now apply completion_unreachable | now left].
  - destruct (Z_le_dec 400 status) as [Lo|Lo]; [destruct (Z_lt_dec status 600) as [Hi|Hi] |].
    + left. split; [apply (completion_error_status _ _ status body R); lia |].
      right; left. exists status, body. split; [reflexivity | lia].
    + destruct body as [result|].
      * right. exists status, result. split; [reflexivity |].
        split; [lia | apply (completion_read _ _ status result R); lia].
      * left. split; [now apply (completion_not_json _ _ status) |].
        right; right. now exists status.
    + destruct body as [result|].
      * right. exists status, result. split; [reflexivity |].
        split; [lia | apply (completion_read _ _ status result R); lia].
      * left. split; [now apply (completion_not_json _ _ status) |].
        right; right. now exists status.
Qed.

End CompletionShapes.

(** X3.  Every failure the code provides for ends in the failure signal,
    after the one request: no answer at all, a 4xx or 5xx status, a body
    that is not JSON, a decoded answer without candidates, content or
    parts, and a structured text [json.loads] rejects. *)
Theorem completion_failures_collapse {W : World} (prompt : string) (schema : value)
    (log : list outbound) :
  remote (gemini_call prompt schema) = NoResponse
  \/ (exists status body,
        remote (gemini_call prompt schema) = Response status body
        /\ ((400 <= status < 600)%Z \/ body = None))
  \/ (exists status result,
        remote (gemini_call prompt schema) = Response status (Some result)
        /\ (lacks_parts result
            \/ exists text, first_text result = Ret (VStr text)
                            /\ truthy schema = true
                            /\ json_loads (clean_json_string text) = None)) ->
  call_gemini_api prompt schema log = (Ret VNone, (log ++ [ gemini_call prompt schema ])%list).
Proof.
  intros H. rewrite call_gemini_api_run. f_equal.
  destruct H as [R | [(status & body & R & [S | ->]) | (status & result & R & H)]].
  - now apply completion_unreachable.
  - exact (completion_error_status _ _ status body R S).
  - exact (completion_not_json _ _ status R).
  - destruct (Z_le_dec 400 status) as [Lo|Lo]; [destruct (Z_lt_dec status 600) as [Hi|Hi] |].
    + apply (completion_error_status _ _ status _ R). lia.
    + rewrite (completion_read _ _ status result R) by lia.
      destruct H as [L | (text & F & T & J)].
      * now rewrite lacks_parts_read.
      * now rewrite (first_text_read _ _ _ F), T, J.
    + rewrite (completion_read _ _ status result R) by lia.
      destruct H as [L | (text & F & T & J)].
      * now rewrite lacks_parts_read.
      * now rewrite (first_text_read _ _ _ F), T, J.
Qed.

Lemma completion_failures_collapse_witness :
  lacks_parts blocked_answer
  /\ call_gemini_api (W := example_world (Response 200 (Some blocked_answer)) NoResponse)
       "Summarise" VNone []
     = (Ret VNone,
        [ gemini_call (W := example_world (Response 200 (Some blocked_answer)) NoResponse)
            "Summarise" VNone ]).
Proof.
  assert (lacks_parts blocked_answer) as L
    by (apply (lacks_candidates _ VNone); reflexivity).
  split; [exact L |].
  apply (completion_failures_collapse
           (W := example_world (Response 200 (Some blocked_answer)) NoResponse)
           "Summarise" VNone []).
  right; right. exists 200%Z, blocked_answer. split; [reflexivity | now left].
Defined.

(** X4.  Of a decoded answer only the text of the first part of the first
    candidate is read, whatever else the answer holds: with a schema the
    text goes through the fence removal and [json.loads] (a rejected text
    being the failure signal), without one it is returned stripped. *)
Theorem first_part_text_is_the_result {W : World} (prompt : string) (schema : value)
    (status : Z) (result : value) (text : string) :
  remote (gemini_call prompt schema) = Response status (Some result) ->
  ~ (400 <= status < 600)%Z ->
  first_text result = Ret (VStr text) ->
  completion_of prompt schema
  = Ret (if truthy schema then
           match json_loads (clean_json_string text) with
           | Some v => v
           | None => VNone
           end
         else VStr (py_strip text)).
Proof.
  intros R S F. rewrite (completion_read _ _ status result R S), (first_text_read _ _ _ F).
  destruct (truthy schema); [| reflexivity].
  destruct (json_loads (clean_json_string text)); reflexivity.
Qed.

Lemma first_part_text_is_the_result_witness :
  first_text (two_candidates "  Linear Algebra ") = Ret (VStr "  Linear Algebra ")
  /\ completion_of
       (W := example_world (Response 200 (Some (two_candidates "  Linear Algebra "))) NoResponse)
       "Title?" VNone
     = Ret (VStr "Linear Algebra").
Proof.
  split; [reflexivity |].
  apply (first_part_text_is_the_result
           (W := example_world (Response 200 (Some (two_candidates "  Linear Algebra "))) NoResponse)
           "Title?" VNone 200 (two_candidates "  Linear Algebra ") "  Linear Algebra ");
    [reflexivity | lia | reflexivity].
Defined.

(** X5.  A decoded answer with a status outside 400..599 that neither
    lacks candidates, content or parts (the case the guard turns into
    [None]) nor carries a string at [candidates[0].content.parts[0].text]
    makes [call_gemini_api] raise, in a class none of its [except] clauses
    names. *)
Theorem unexpected_shape_raises {W : World} (prompt : string) (schema : value)
    (status : Z) (result : value) :
  remote (gemini_call prompt schema) = Response status (Some result) ->
  ~ (400 <= status < 600)%Z ->
  ~ lacks_parts result ->
  (forall text, first_text result <> Ret (VStr text)) ->
  exists e, completion_of prompt schema = Raise e /\ uncaught e.
Proof.
  intros R S L F. rewrite (completion_read _ _ status result R S).
  destruct (read_completion_cases schema result) as [L' | [[text F'] | (e & E & U)]].
  - contradiction.
  - now apply F in F'.
  - exists e. split; [| exact U]. rewrite E. destruct U as [U1 U2].
    destruct e; try reflexivity; contradiction.
Qed.

Lemma unexpected_shape_raises_witness :
  ~ lacks_parts numeric_text_answer
  /\ exists e,
       completion_of (W := example_world (Response 200 (Some numeric_text_answer)) NoResponse)
         "Title?" VNone
       = Raise e
       /\ uncaught e.
Proof.
  assert (~ lacks_parts numeric_text_answer) as L.
  { intros L. inversion L as [kvs c G T | kvs cand others c D G T
                              | kvs cand content others parts D C G T].
    - subst. injection G as <-. discriminate T.
    - subst. injection D as <- <-. injection G as <-. discriminate T.
    - subst. injection D as <- <-. injection C as <-. injection G as <-. discriminate T. }
  split; [exact L |].
  apply (unexpected_shape_raises
           (W := example_world (Response 200 (Some numeric_text_answer)) NoResponse)
           "Title?" VNone 200 numeric_text_answer);
    [reflexivity | lia | exact L | discriminate].
Defined.

(** ** [str.strip] *)

Module StripFacts.

Lemma lstrip_head (s : string) :
  py_lstrip s = "" \/ exists c r, py_lstrip s = String c r /\ is_space c = false.
Proof.
  induction s as [|c s IH]; [now left |].
  cbn [py_lstrip]. destruct (is_space c) eqn:C; [exact IH |].
  right. now exists c, s.
Qed.

Lemma rstrip_keeps_head (c : ascii) (s : string) :
  is_space c = false -> py_rstrip (String c s) = String c (py_rstrip s).
Proof. intros C. cbn [py_rstrip]. rewrite C. now destruct (py_rstrip s). Qed.

Lemma rstrip_idempotent (s : string) : py_rstrip (py_rstrip s) = py_rstrip s.
Proof.
  induction s as [|c s IH]; [reflexivity |].
  cbn [py_rstrip]. destruct (py_rstrip s) as [|d r] eqn:R.
  - destruct (is_space c) eqn:C; [reflexivity |].
    cbn [py_rstrip]. now rewrite C.
  - change (py_rstrip (String c (String d r))) with
      (match py_rstrip (String d r) with
       | EmptyString => if is_space c then EmptyString else String c EmptyString
       | String a b => String c (String a b)
       end).
    now rewrite IH.
Qed.

Lemma strip_idempotent (s : string) : py_strip (py_strip s) = py_strip s.
Proof.
  unfold py_strip. destruct (lstrip_head s) as [-> | (c & r & -> & C)]; [reflexivity |].
  rewrite (rstrip_keeps_head c r C). cbn [py_lstrip]. rewrite C.
  rewrite <- (rstrip_keeps_head c r C). apply rstrip_idempotent.
Qed.

Lemma strip_all_space (s : string) : all_space s = true -> py_strip s = "".
Proof.
  intros A. unfold py_strip. replace (py_lstrip s) with ""; [reflexivity |].
  induction s as [|c s IH]; [reflexivity |].
  cbn [all_space] in A. apply andb_true_iff in A as [C A].
  cbn [py_lstrip]. rewrite C. now apply IH.
Qed.

End StripFacts.

(** ** Completions without a schema *)

(** A completion asked for without a schema is the failure signal or a
    stripped string. *)
Lemma plain_completion_shape {W : World} (prompt : string) (v : value) :
  completion_of prompt VNone = Ret v ->
  v = VNone \/ exists s, v = VStr s /\ trimmed s.
Proof.
  intros E.
  destruct (completion_of_cases prompt VNone) as [[N _] | (status & result & R & S & C)].
  - rewrite N in E. injection E as <-. now left.
  - rewrite C in E.
    destruct (read_completion_cases VNone result) as [L | [[text F] | (e & X & U1 & U2)]].
    + rewrite (lacks_parts_read _ _ L) in E. injection E as <-. now left.
    + rewrite (first_text_read _ _ _ F) in E. cbn [truthy caught] in E.
      injection E as <-. right. exists (py_strip text).
      split; [reflexivity | apply StripFacts.strip_idempotent].
    + rewrite X in E. destruct e; try discriminate E; contradiction.
Qed.

(** X6.  What the two plain-text handlers answer is stripped: the [title]
    of an answer of [extract_title] is [null] or a string without white
    space at either end, and the [notes] of an answer of [generate_notes]
    are always a non-empty such string. *)
Theorem plain_text_answers_are_trimmed {W : World} (data : value) :
  (forall status title,
      fst (post ExtractTitle data) = JsonReply status (VDict [ ("title", title) ]) ->
      title = VNone \/ exists s, title = VStr s /\ trimmed s)
  /\ (forall status notes,
        fst (post GenerateNotes data) = JsonReply status (VDict [ ("notes", notes) ]) ->
        exists s, notes = VStr s /\ s <> "" /\ trimmed s).
Proof.
  split; intros status v E.
  - destruct data as [| | | | | |kvs]; try discriminate E.
    pose proof (eq_refl : py_get_default (VDict kvs) (required_field ExtractTitle) (VStr "")
                          = Ret _) as G.
    destruct (truthy (match dict_lookup "syllabus_text" kvs with
                      | Some f => f | None => VStr "" end)) eqn:T.
    + rewrite (post_extract_title _ _ G T) in E. cbn [fst] in E.
      destruct (completion_of _ VNone) as [title|] eqn:C; [| discriminate E].
      injection E as _ <-. exact (plain_completion_shape _ _ C).
    + rewrite (post_rejected ExtractTitle _ _ G T) in E. discriminate E.
  - destruct data as [| | | | | |kvs]; try discriminate E.
    pose proof (eq_refl : py_get_default (VDict kvs) (required_field GenerateNotes) (VStr "")
                          = Ret _) as G.
    destruct (truthy (match dict_lookup "topic" kvs with
                      | Some f => f | None => VStr "" end)) eqn:T.
    + rewrite (post_generate_notes _ _ G T) in E. cbn [fst] in E.
      destruct (completion_of _ VNone) as [notes|] eqn:C; [| discriminate E].
      injection E as _ <-.
      destruct (plain_completion_shape _ _ C) as [-> | (s & -> & S)].
      * cbn [truthy]. eexists. split; [reflexivity |]. split; [discriminate | reflexivity].
      * destruct (truthy (VStr s)) eqn:Ts.
        -- exists s. split; [reflexivity |]. split; [| exact S].
           intros ->. discriminate Ts.
        -- eexists. split; [reflexivity |]. split; [discriminate | reflexivity].
    + rewrite (post_rejected GenerateNotes _ _ G T) in E. discriminate E.
Qed.

(** X7.  When the text of the completion is nothing but white space,
    [extract_title] answers an empty title and [generate_notes] its
    placeholder. *)
Theorem blank_completion_text {W : World} (h : handler) (data field : value)
    (status : Z) (result : value) (text : string) :
  h = ExtractTitle \/ h = GenerateNotes ->
  py_get_default data (required_field h) (VStr "") = Ret field ->
  truthy field = true ->
  remote (gemini_call (completion_prompt h field) VNone) = Response status (Some result) ->
  ~ (400 <= status < 600)%Z ->
  first_text result = Ret (VStr text) ->
  all_space text = true ->
  fst (post h data)
  = JsonReply 200
      (match h with
       | ExtractTitle => VDict [ ("title", VStr "") ]
       | _ => VDict [ ("notes", VStr "Could not generate notes for this topic.") ]
       end).
Proof.
  intros H G T R S F A.
  assert (completion_of (completion_prompt h field) VNone = Ret (VStr "")) as C.
  { rewrite (completion_read _ _ status result R S), (first_text_read _ _ _ F).
    cbn [truthy caught]. now rewrite (StripFacts.strip_all_space _ A). }
  destruct H as [-> | ->]; cbn [required_field completion_prompt] in *.
  - rewrite (post_extract_title _ _ G T). cbn [fst]. now rewrite C.
  - rewrite (post_generate_notes _ _ G T). cbn [fst]. now rewrite C.
Qed.

Lemma blank_completion_text_witness :
  all_space (" " ++ nl) = true
  /\ fst (post (W := example_world (completes (" " ++ nl)) NoResponse)
            ExtractTitle (request_for ExtractTitle "Linear Algebra"))
     = JsonReply 200 (VDict [ ("title", VStr "") ]).
Proof.
  split; [reflexivity |].
  apply (blank_completion_text (W := example_world (completes (" " ++ nl)) NoResponse)
           ExtractTitle (request_for ExtractTitle "Linear Algebra") (VStr "Linear Algebra")
           200 (completion_body (text_part (" " ++ nl))) (" " ++ nl));
    [now left | reflexivity | reflexivity | reflexivity | lia | reflexivity | reflexivity].
Defined.

(** ** The search, result by result *)

Section SearchShapes.
Context {W : World}.

Lemma scan_items_video (items : list value) (v : value) :
  scan_items items = Ret (Some v) -> exists title video_id, v = video title video_id.
Proof.
  induction items as [|item items IH]; [discriminate |].
  cbn [scan_items].
  destruct (py_item item "id") as [id|]; [| discriminate]. cbn [rbind].
  destruct (py_item id "videoId") as [video_id|]; [| discriminate]. cbn [rbind].
  destruct (py_item item "snippet") as [snippet|]; [| discriminate]. cbn [rbind].
  destruct (py_item snippet "title") as [video_title|]; [| discriminate]. cbn [rbind].
  destruct (as_str video_title) as [title|]; [| discriminate]. cbn [rbind].
  destruct (looks_like_lecture (py_lower title)); [| exact IH].
  intros E. injection E as <-. now exists video_title, video_id.
Qed.

Lemma pick_video_shape (results v : value) :
  pick_video results = Ret v ->
  v = VNone \/ exists title video_id, v = video title video_id.
Proof.
  unfold pick_video. destruct (truthy results); [| intros E; injection E as <-; now left].
  destruct (py_get results "items") as [items|]; [| discriminate]. cbn [rbind].
  destruct (truthy items); [| intros E; injection E as <-; now left].
  destruct (py_item results "items") as [items'|]; [| discriminate]. cbn [rbind].
  destruct (py_iter items') as [visited|]; [| discriminate]. cbn [rbind].
  destruct (scan_items visited) as [[found|]|] eqn:S; [| | discriminate]; cbn [rbind].
  - intros E. injection E as <-. right. exact (scan_items_video _ _ S).
  - destruct (py_index items' 0) as [first_item|]; [| discriminate]. cbn [rbind].
    destruct (py_item first_item "id") as [id|]; [| discriminate]. cbn [rbind].
    destruct (py_item id "videoId") as [video_id|]; [| discriminate]. cbn [rbind].
    destruct (py_item first_item "snippet") as [snippet|]; [| discriminate]. cbn [rbind].
    destruct (py_item snippet "title") as [video_title|]; [| discriminate]. cbn [rbind].
    intros E. injection E as <-. right. now exists video_title, video_id.
Qed.

Lemma search_of_shape (query : string) (v : value) :
  search_of query = Ret v ->
  v = VNone \/ exists title video_id, v = video title video_id.
Proof.
  unfold search_of, search_youtube_videos, try_except, bind, requests_get, lift, ret.
  destruct (remote _) as [|status body]; [intros E; injection E as <-; now left |].
  destruct (raise_for_status (status, body)) as [[]|e];
    [| destruct e; intros E; injection E as <-; now left].
  destruct (response_json (status, body)) as [r|e];
    [| destruct e; intros E; injection E as <-; now left].
  destruct (pick_video r) as [v'|e] eqn:P;
    [| destruct e; intros E; injection E as <-; now left].
  intros E. injection E as <-. exact (pick_video_shape _ _ P).
Qed.

(** Well-formed results without a keyword in their titles are passed over. *)
Lemma scan_items_pass (before : list value) (cs : list candidate) (rest : list value) :
  Forall2 is_candidate before cs ->
  (forall b, In b cs -> ~ lecture_title (fst b)) ->
  scan_items (before ++ rest) = scan_items rest.
Proof.
  intros F. induction F as [|item c before cs Hc F IH]; intros N; [reflexivity |].
  change ((item :: before) ++ rest)%list with (item :: before ++ rest)%list.
  rewrite (scan_items_step _ _ _ Hc).
  destruct (looks_like_lecture (py_lower (fst c))) eqn:B.
  - apply looks_like_lecture_spec in B. exfalso. apply (N c); [now left | exact B].
  - apply IH. intros b I. apply N. now right.
Qed.

Lemma scan_items_unreadable (item : value) (rest : list value) :
  unreadable item -> exists e, scan_items (item :: rest) = Raise e.
Proof.
  intros U. unfold unreadable in U. cbn [scan_items].
  destruct (py_item item "id") as [id|e]; [| now exists e]. cbn [rbind] in *.
  destruct (py_item id "videoId") as [video_id|e]; [| now exists e]. cbn [rbind] in *.
  destruct (py_item item "snippet") as [snippet|e]; [| now exists e]. cbn [rbind] in *.
  destruct (py_item snippet "title") as [video_title|e]; [| now exists e]. cbn [rbind] in *.
  destruct U as [[e U] | [[e U] | (title & U & N)]]; try discriminate U.
  injection U as <-. destruct video_title; try (now exists AttributeError).
  now destruct (N s).
Qed.

(** The body of the [try] on a list of results: what the loop finds or
    raises is what the search makes of it. *)
Lemma pick_video_scan (results : value) (items : list value) :
  py_get results "items" = Ret (VList items) ->
  match scan_items items with
  | Ret (Some v) => pick_video results = Ret v
  | Raise e => pick_video results = Raise e
  | Ret None => True
  end.
Proof.
  intros G. unfold pick_video.
  destruct results as [| | | | | |kvs]; try discriminate G.
  simpl in G. destruct (dict_lookup "items" kvs) as [v|] eqn:L; [| discriminate G].
  injection G as ->.
  assert (truthy (VDict kvs) = true) as T by (destruct kvs; [discriminate L | reflexivity]).
  rewrite T. simpl py_get. simpl py_item. rewrite L. cbn [rbind].
  destruct items as [|item items]; [exact I |].
  cbn [truthy py_iter rbind].
  destruct (scan_items (item :: items)) as [[v|]|e]; cbn [rbind]; auto.
Qed.

End SearchShapes.

(** X8.  [search_youtube_videos] never raises and sends exactly one request;
    what it hands back is [None] or an object of exactly a [title] and a
    [url], the url being the watch address of a video id. *)
Theorem search_never_raises {W : World} (query : string) (log : list outbound) :
  exists v,
    search_youtube_videos query log = (Ret v, (log ++ [ youtube_call query ])%list)
    /\ (v = VNone
        \/ exists title video_id,
             v = VDict [ ("title", title);
                         ("url", VStr ("https://www.youtube.com/watch?v="
                                       ++ format_value video_id)) ]).
Proof.
  destruct (search_of_total query) as [v S]. exists v.
  rewrite search_youtube_videos_run, S. split; [reflexivity |].
  exact (search_of_shape _ _ S).
Qed.

(** X9.  When the search hands back a video, [suggest_video] answers 200
    with that very object and the completion service is not called: the
    search request is the only one sent. *)
Theorem found_video_is_relayed {W : World} (data field video_info : value) :
  py_get_default data "topic" (VStr "") = Ret field ->
  truthy field = true ->
  search_of (search_query field) = Ret video_info ->
  truthy video_info = true ->
  post SuggestVideo data
  = (JsonReply 200 video_info, [ youtube_call (search_query field) ]).
Proof.
  intros G T S V. rewrite (post_suggest_video_found _ _ _ G T S V).
  destruct (search_of_shape _ _ S) as [-> | (title & video_id & ->)]; [discriminate V |].
  reflexivity.
Qed.

Lemma found_video_is_relayed_witness :
  post (W := lecture_series_world) SuggestVideo (request_for SuggestVideo "X")
  = (JsonReply 200 (suggestion ("X Lecture Series", "v2")),
     [ youtube_call (W := lecture_series_world)
         "X academic lecture full course tutorial explanation" ]).
Proof.
  apply (found_video_is_relayed (W := lecture_series_world)
           (request_for SuggestVideo "X") (VStr "X")
           (suggestion ("X Lecture Series", "v2")));
    reflexivity.
Defined.

(** X10.  The loop stops at the first result whose title carries a keyword:
    once the results before it are well formed and carry none, that result
    is the answer whatever follows it in the list, well formed or not. *)
Theorem scan_stops_at_first_match {W : World} (query : string) (status : Z)
    (results item : value) (before after : list value) (cs : list candidate)
    (c : candidate) :
  remote (youtube_call query) = Response status (Some results) ->
  ~ (400 <= status < 600)%Z ->
  py_get results "items" = Ret (VList (before ++ item :: after)) ->
  Forall2 is_candidate before cs ->
  (forall b, In b cs -> ~ lecture_title (fst b)) ->
  is_candidate item c ->
  lecture_title (fst c) ->
  search_of query = Ret (suggestion c).
Proof.
  intros R S G F N Hc L. rewrite (search_read _ _ _ R S).
  pose proof (pick_video_scan _ _ G) as P.
  rewrite (scan_items_pass _ _ _ F N), (scan_items_step _ _ _ Hc) in P.
  apply looks_like_lecture_spec in L. rewrite L in P. now rewrite P.
Qed.

Lemma scan_stops_at_first_match_witness :
  search_of
    (W := example_world NoResponse
            (finds [ search_item "Intro to X" "v1"; search_item "X Course" "v2";
                     VNone; VStr "noise" ]))
    "X"
  = Ret (suggestion ("X Course", "v2")).
Proof.
  apply (scan_stops_at_first_match
           (W := example_world NoResponse
                   (finds [ search_item "Intro to X" "v1"; search_item "X Course" "v2";
                            VNone; VStr "noise" ]))
           "X" 200
           (search_body [ search_item "Intro to X" "v1"; search_item "X Course" "v2";
                          VNone; VStr "noise" ])
           (search_item "X Course" "v2")
           [ search_item "Intro to X" "v1" ] [ VNone; VStr "noise" ]
           [ ("Intro to X", "v1") ] ("X Course", "v2")).
  - reflexivity.
  - lia.
  - reflexivity.
  - repeat constructor.
  - intros b [<- | []]. rewrite <- looks_like_lecture_spec. cbn [fst]. now vm_compute.
  - split; reflexivity.
  - apply looks_like_lecture_spec. reflexivity.
Defined.

(** X11.  One result the loop cannot read, ahead of any title with a
    keyword, voids the whole search: the exception is swallowed and the
    search hands back [None], however good the results around it. *)
Theorem unreadable_result_voids_search {W : World} (query : string) (status : Z)
    (results bad : value) (before after : list value) (cs : list candidate) :
  remote (youtube_call query) = Response status (Some results) ->
  ~ (400 <= status < 600)%Z ->
  py_get results "items" = Ret (VList (before ++ bad :: after)) ->
  Forall2 is_candidate before cs ->
  (forall b, In b cs -> ~ lecture_title (fst b)) ->
  unreadable bad ->
  search_of query = Ret VNone.
Proof.
  intros R S G F N U. rewrite (search_read _ _ _ R S).
  pose proof (pick_video_scan _ _ G) as P.
  rewrite (scan_items_pass _ _ _ F N) in P.
  destruct (scan_items_unreadable bad after U) as [e E].
  rewrite E in P. now rewrite P.
Qed.

Lemma unreadable_result_voids_search_witness :
  unreadable (channel_item "X University" "c1")
  /\ search_of
       (W := example_world NoResponse
               (finds [ search_item "Intro to X" "v1"; channel_item "X University" "c1";
                        search_item "X Lecture Series" "v2" ]))
       "X"
     = Ret VNone.
Proof.
  assert (unreadable (channel_item "X University" "c1")) as U
    by (left; exists KeyError; reflexivity).
  split; [exact U |].
  apply (unreadable_result_voids_search
           (W := example_world NoResponse
                   (finds [ search_item "Intro to X" "v1"; channel_item "X University" "c1";
                            search_item "X Lecture Series" "v2" ]))
           "X" 200
           (search_body [ search_item "Intro to X" "v1"; channel_item "X University" "c1";
                          search_item "X Lecture Series" "v2" ])
           (channel_item "X University" "c1")
           [ search_item "Intro to X" "v1" ] [ search_item "X Lecture Series" "v2" ]
           [ ("Intro to X", "v1") ]).
  - reflexivity.
  - lia.
  - reflexivity.
  - repeat constructor.
  - intros b [<- | []]. rewrite <- looks_like_lecture_spec. cbn [fst]. now vm_compute.
  - exact U.
Defined.

(** ** A fence without the [json] tag *)

Module BareFence.

(** The first marker of the fence removal carries the [json] tag and the
    second a line end in front: three backquotes at the very start of a
    text survive both replacements and the strip. *)
Lemma bare_fence_kept (rest : string) :
  exists x, clean_json_string ("```" ++ nl ++ rest) = "```" ++ x.
Proof.
  rewrite clean_json_string_eq.
  change ("```" ++ nl ++ rest)
    with (String "`" (String "`" (String "`" (String (ascii_of_nat 10) rest)))).
  set (tick := "`"%char). set (lf := ascii_of_nat 10).
  assert (forall s, replace_from opening_fence "" 0
                      (String tick (String tick (String tick (String lf s))))
                    = String tick (String tick (String tick (String lf
                        (replace_from opening_fence "" 0 s))))) as O.
  { intros s. rewrite !replace_from_cons. reflexivity. }
  rewrite O. set (r := replace_from opening_fence "" 0 rest).
  assert (exists y, replace_from closing_fence "" 0
                      (String tick (String tick (String tick (String lf r))))
                    = String tick (String tick (String tick y))) as [y ->].
  { rewrite !replace_from_cons.
    change (prefix closing_fence (String tick (String tick (String tick (String lf r)))))
      with false.
    change (prefix closing_fence (String tick (String tick (String lf r)))) with false.
    change (prefix closing_fence (String tick (String lf r))) with false.
    cbv iota. destruct (prefix closing_fence (String lf r)); eexists; reflexivity. }
  exists (py_rstrip y). unfold py_strip. cbn [py_lstrip].
  change (is_space tick) with false. cbv iota.
  now rewrite !(StripFacts.rstrip_keeps_head tick).
Qed.

(** The reference decoder, like [json.loads], reads no text that starts
    with backquotes. *)
Lemma backticks_rejected (t : string) :
  prefix "```" t = true -> json_loads_ref t = None.
Proof.
  intros P. apply prefix_split in P as [r ->]. unfold json_loads_ref.
  replace (2 * String.length ("```" ++ r) + 2)%nat
    with (S (2 * String.length ("```" ++ r) + 1)) by lia.
  reflexivity.
Qed.

End BareFence.

(** X12.  A structured completion fenced with three backquotes and no
    [json] tag keeps its opening backquotes through the fence removal,
    whatever the payload; as [json.loads] reads no text that starts with
    backquotes, the call ends in the failure signal. *)
Theorem bare_fence_is_not_removed {W : World} (prompt : string) (schema : value)
    (status : Z) (result : value) (payload : string) :
  (forall t, prefix "```" t = true -> json_loads t = None) ->
  remote (gemini_call prompt schema) = Response status (Some result) ->
  ~ (400 <= status < 600)%Z ->
  first_text result = Ret (VStr ("```" ++ nl ++ payload ++ nl ++ "```")) ->
  truthy schema = true ->
  prefix "```" (clean_json_string ("```" ++ nl ++ payload ++ nl ++ "```")) = true
  /\ completion_of prompt schema = Ret VNone.
Proof.
  intros J R S F T.
  assert (prefix "```" (clean_json_string ("```" ++ nl ++ payload ++ nl ++ "```")) = true) as P.
  { destruct (BareFence.bare_fence_kept (payload ++ nl ++ "```")) as [x ->].
    apply prefix_append. }
  split; [exact P |].
  rewrite (completion_read _ _ status result R S), (first_text_read _ _ _ F), T.
  now rewrite (J _ P).
Qed.

Lemma bare_fence_is_not_removed_witness :
  json_loads_ref graphs_trees_text
  = Some (VList [ VDict [ ("topic", VStr "Graphs") ]; VDict [];
                  VDict [ ("topic", VStr "Trees") ] ])
  /\ completion_of
       (W := example_world (completes ("```" ++ nl ++ graphs_trees_text ++ nl ++ "```"))
               NoResponse)
       "Extract key academic topics" topics_schema
     = Ret VNone.
Proof.
  split; [reflexivity |].
  apply (bare_fence_is_not_removed
           (W := example_world (completes ("```" ++ nl ++ graphs_trees_text ++ nl ++ "```"))
                   NoResponse)
           "Extract key academic topics" topics_schema 200
           (completion_body (text_part ("```" ++ nl ++ graphs_trees_text ++ nl ++ "```")))
           graphs_trees_text);
    [exact BareFence.backticks_rejected | reflexivity | lia | reflexivity | reflexivity].
Defined.

(** ** Structured results of the wrong shape *)

Section ResultShapes.
Context {W : World}.

Lemma collect_topics_needs_objects (items topics : list value) :
  collect_topics items = Ret topics -> Forall is_object items.
Proof.
  revert topics. induction items as [|item items IH]; intros topics H; [constructor |].
  cbn [collect_topics] in H.
  destruct item as [| | | | | |kvs]; try discriminate H.
  constructor; [now exists kvs |].
  cbn [py_get py_get_default rbind] in H.
  destruct (truthy _); [| exact (IH _ H)].
  cbn [rbind] in H. destruct (collect_topics items) as [more|]; [| discriminate H].
  now apply (IH more).
Qed.

Lemma normalize_topics_needs_objects (topics_raw : value) (topics : list value) :
  truthy topics_raw = true ->
  normalize_topics topics_raw = Ret topics ->
  exists items, topics_raw = VList items /\ Forall is_object items.
Proof.
  intros T. unfold normalize_topics. rewrite T.
  destruct topics_raw as [| | | |s|items|kvs]; try discriminate.
  - destruct s as [|c s]; [discriminate T |]. discriminate.
  - cbn [py_iter rbind]. intros H. exists items.
    split; [reflexivity | exact (collect_topics_needs_objects _ _ H)].
  - destruct kvs as [|[k v] kvs]; [discriminate T |]. discriminate.
Qed.

End ResultShapes.

(** X13.  [extract_topics] answers 200 exactly when the structured result
    is falsy or an array of objects; on any other decoded value (an array
    with an entry that is not an object, a non-empty object or string, a
    number, [true]) the comprehension raises and the answer is the 500
    page. *)
Theorem topics_answer_needs_objects {W : World} (data field topics_raw : value) :
  py_get_default data "syllabus_text" (VStr "") = Ret field ->
  truthy field = true ->
  completion_of (topics_prompt field) topics_schema = Ret topics_raw ->
  (truthy topics_raw = false
   \/ (exists items, topics_raw = VList items /\ Forall is_object items) ->
   exists topics, fst (post ExtractTopics data)
                  = JsonReply 200 (VDict [ ("topics", VList topics) ]))
  /\ (truthy topics_raw = true ->
      (forall items, topics_raw = VList items -> ~ Forall is_object items) ->
      fst (post ExtractTopics data) = InternalServerError).
Proof.
  intros G T C. rewrite (post_extract_topics _ _ G T), C. cbn [fst]. split.
  - intros [F | (items & -> & F)].
    + rewrite (normalize_topics_absent _ F). now exists [].
    + rewrite (normalize_topics_objects _ F). now exists (usable_topics items).
  - intros Tr N. destruct (normalize_topics topics_raw) as [topics|] eqn:E; [| reflexivity].
    destruct (normalize_topics_needs_objects _ _ Tr E) as (items & -> & F).
    now destruct (N items eq_refl).
Qed.

Lemma topics_answer_needs_objects_witness :
  fst (post (W := example_world (completes ("[" ++ quoted "Graphs" ++ "]")) NoResponse)
         ExtractTopics (request_for ExtractTopics "Data structures"))
  = InternalServerError.
Proof.
  apply (proj2 (topics_answer_needs_objects
                  (W := example_world (completes ("[" ++ quoted "Graphs" ++ "]")) NoResponse)
                  (request_for ExtractTopics "Data structures") (VStr "Data structures")
                  (VList [ VStr "Graphs" ]) eq_refl eq_refl eq_refl)).
  - reflexivity.
  - intros items E F. injection E as <-. apply Forall_inv in F as [kvs F]. discriminate F.
Defined.

(** X14.  In the fallback of [suggest_video] a generated object is
    relayed member by member, [null] standing for a [title] or [url] it
    lacks; a falsy result gives the sentinel; any other decoded value (a
    non-empty array or string, a number, [true]) raises on [get] and the
    answer is the 500 page. *)
Theorem video_fallback_by_shape {W : World} (data field video_info generated : value) :
  py_get_default data "topic" (VStr "") = Ret field ->
  truthy field = true ->
  search_of (search_query field) = Ret video_info ->
  truthy video_info = false ->
  completion_of (video_prompt field) video_schema = Ret generated ->
  fst (post SuggestVideo data)
  = match generated with
    | VDict (member :: members) =>
        JsonReply 200
          (VDict [ ("title", match dict_lookup "title" (member :: members) with
                             | Some title => title
                             | None => VNone
                             end);
                   ("url", match dict_lookup "url" (member :: members) with
                           | Some url => url
                           | None => VNone
                           end) ])
    | _ => if truthy generated then InternalServerError else JsonReply 200 failed_video
    end.
Proof.
  intros G T S V C. rewrite (post_suggest_video_fallback _ _ _ G T S V), C. cbn [fst].
  destruct generated as [|b|n|x|s|xs|[|member members]]; reflexivity.
Qed.

Lemma video_fallback_by_shape_witness :
  fst (post (W := example_world (completes ("{" ++ quoted "title" ++ ": " ++ quoted "Graphs" ++ "}"))
                    (finds []))
         SuggestVideo (request_for SuggestVideo "Graphs"))
  = JsonReply 200 (VDict [ ("title", VStr "Graphs"); ("url", VNone) ]).
Proof.
  apply (video_fallback_by_shape
           (W := example_world (completes ("{" ++ quoted "title" ++ ": " ++ quoted "Graphs" ++ "}"))
                   (finds []))
           (request_for SuggestVideo "Graphs") (VStr "Graphs") VNone
           (VDict [ ("title", VStr "Graphs") ]));
    reflexivity.
Defined.

(** ** Start-up *)

(** X15.  The module gets past its credential checks exactly when both
    variables are set to non-empty strings, which it then keeps as its two
    keys: a variable set to the empty string counts as missing. *)
Theorem startup_needs_both_keys (getenv : string -> option string) (g y : string) :
  module_init getenv = Configured g y
  <-> getenv "GOOGLE_API_KEY" = Some g /\ g <> ""
      /\ getenv "YOUTUBE_API_KEY" = Some y /\ y <> "".
Proof.
  unfold module_init, unset. split.
  - destruct (getenv "GOOGLE_API_KEY") as [g'|]; [| discriminate].
    destruct (String.eqb_spec g' ""); [discriminate |].
    destruct (getenv "YOUTUBE_API_KEY") as [y'|]; [| discriminate].
    destruct (String.eqb_spec y' ""); [discriminate |].
    intros E. injection E as <- <-. auto.
  - intros (-> & Ng & -> & Ny).
    destruct (String.eqb_spec g ""); [contradiction |].
    destruct (String.eqb_spec y ""); [contradiction | reflexivity].
Qed.

(** ** Requests sent per request served *)

(** X16.  No handler sends a request twice: to a POST the server sends
    nothing (the request was refused or its body no object), or the one
    completion request of the handler, or for [suggest_video] the search
    request, followed or not by its one completion request. *)
Theorem no_request_is_repeated {W : World} (h : handler) (data : value) :
  snd (post h data) = []
  \/ (h <> SuggestVideo
      /\ exists field,
           snd (post h data)
           = [ gemini_call (completion_prompt h field) (completion_schema h) ])
  \/ (h = SuggestVideo
      /\ exists field,
           snd (post h data) = [ youtube_call (search_query field) ]
           \/ snd (post h data)
              = [ youtube_call (search_query field);
                  gemini_call (video_prompt field) video_schema ]).
Proof.
  destruct data as [| | | | | |kvs]; try (left; destruct h; reflexivity).
  pose proof (eq_refl : py_get_default (VDict kvs) (required_field h) (VStr "") = Ret _) as G.
  set (field := match dict_lookup (required_field h) kvs with
                | Some v => v
                | None => VStr ""
                end) in G.
  destruct (truthy field) eqn:T.
  2:{ left. now rewrite (post_rejected h _ _ G T). }
  right. destruct h; cbn [required_field] in G.
  - left. split; [discriminate |]. exists field. now rewrite (post_extract_title _ _ G T).
  - left. split; [discriminate |]. exists field. now rewrite (post_extract_topics _ _ G T).
  - right. split; [reflexivity |]. exists field.
    destruct (search_of_total (search_query field)) as [v S].
    destruct (truthy v) eqn:V.
    + left. now rewrite (post_suggest_video_found _ _ _ G T S V).
    + right. now rewrite (post_suggest_video_fallback _ _ _ G T S V).
  - left. split; [discriminate |]. exists field. now rewrite (post_generate_notes _ _ G T).
  - left. split; [discriminate |]. exists field.
    now rewrite (post_generate_flashcards _ _ G T).
  - left. split; [discriminate |]. exists field.
    now rewrite (post_generate_questions _ _ G T).
Qed.

(** ** What the handlers do with an exception *)

(** X17.  No handler catches what [call_gemini_api] raises: whenever its
    completion call raises on an accepted request (for [suggest_video],
    after a search that found nothing), the client gets the 500 page. *)
Theorem raised_completion_is_500 {W : World} (h : handler) (data field : value) (e : exn) :
  py_get_default data (required_field h) (VStr "") = Ret field ->
  truthy field = true ->
  (h = SuggestVideo -> search_of (search_query field) = Ret VNone) ->
  completion_of (completion_prompt h field) (completion_schema h) = Raise e ->
  fst (post h data) = InternalServerError.
Proof.
  intros G T S C. destruct h; cbn [required_field completion_prompt completion_schema] in *.
  - now rewrite (post_extract_title _ _ G T), C.
  - now rewrite (post_extract_topics _ _ G T), C.
  - now rewrite (post_suggest_video_fallback _ _ _ G T (S eq_refl) eq_refl), C.
  - now rewrite (post_generate_notes _ _ G T), C.
  - now rewrite (post_generate_flashcards _ _ G T), C.
  - now rewrite (post_generate_questions _ _ G T), C.
Qed.

Lemma raised_completion_is_500_witness :
  completion_of (W := example_world (Response 200 (Some numeric_text_answer)) NoResponse)
    (questions_prompt (W := example_world (Response 200 (Some numeric_text_answer)) NoResponse)
       (VStr "Graphs"))
    questions_schema
  = Raise AttributeError
  /\ fst (post (W := example_world (Response 200 (Some numeric_text_answer)) NoResponse)
            GenerateQuestions (request_for GenerateQuestions "Graphs"))
     = InternalServerError.
Proof.
  split; [reflexivity |].
  apply (raised_completion_is_500
           (W := example_world (Response 200 (Some numeric_text_answer)) NoResponse)
           GenerateQuestions (request_for GenerateQuestions "Graphs") (VStr "Graphs")
           AttributeError);
    [reflexivity | reflexivity | discriminate | reflexivity].
Defined.
